(** * Obsidian Git Collaboration plugin: branch-mode state machine

    A shallow embedding of the parts of [src/main.ts], [src/readonly.ts] and
    [src/git.ts] that own the mode flag, the branch settings, the credential
    map and the git-operation flag, together with the properties the
    specification states about them.

    Conventions of the embedding.
    - JavaScript strings are [string]s (byte strings); [undefined] is [None].
    - [this.plugin.settings] is the record [GitCollabSettings]; the object
      [repositoryTokens] is a finite map from strings to strings.
    - The plugin object, the persisted copy of the settings, the notices and
      modals shown, and the outside world (vault adapter, git repository,
      vault directory) form one record [Plugin] that every method threads.
    - A method is a computation [M A]: it takes a [Plugin] and gives back a
      completion (a value, or a thrown error with its message) and the new
      [Plugin].  [try_catch] and [try_finally] are JavaScript's.
    - Every [execAsync], [fs.promises] and host call is logged in [calls];
      the [n]-th call of a run fails exactly when [faults n] holds, so every
      pattern of failing subprocesses is some choice of [faults].  Where a
      checkout that succeeds leaves the repository, and what a failing
      call reports, are given by the world in the same way.
    - [console.log], [console.error] and the DOM updates of the status bar
      and ribbon have no effect on the modelled state and are left out;
      [saveData] and [new Notice] are total. *)

From Stdlib Require Import ZArith Lia Ascii String.
From stdpp Require Import base strings list gmap pretty.

Open Scope string_scope.

(** ** JavaScript string primitives *)

Module Js.

(** [s.startsWith(p)] *)
Fixpoint startsWith (p s : string) : bool :=
  match p, s with
  | EmptyString, _ => true
  | String a p', String b s' => if decide (a = b) then startsWith p' s' else false
  | String _ _, EmptyString => false
  end.

(** [s.substring(n)] *)
Fixpoint substring_from (n : nat) (s : string) : string :=
  match n, s with
  | O, _ => s
  | S n', String _ s' => substring_from n' s'
  | S _, EmptyString => EmptyString
  end.

(** [s.includes(p)] *)
Fixpoint includes (p s : string) : bool :=
  if startsWith p s then true
  else match s with
       | EmptyString => false
       | String _ s' => includes p s'
       end.

(** [s.replace(p, r)] with a string pattern: the first occurrence only. *)
Fixpoint replace (p r s : string) : string :=
  if startsWith p s then r +:+ substring_from (String.length p) s
  else match s with
       | EmptyString => EmptyString
       | String a s' => String a (replace p r s')
       end.

(** [s.replace(/^https?:\/\//, '')] *)
Definition strip_scheme (s : string) : string :=
  if startsWith "https://" s then substring_from 8 s
  else if startsWith "http://" s then substring_from 7 s
  else s.

(** [s.replace(/\.git$/, '')] *)
Fixpoint strip_git_suffix (s : string) : string :=
  if decide (s = ".git") then EmptyString
  else match s with
       | EmptyString => EmptyString
       | String a s' => String a (strip_git_suffix s')
       end.

(** The white space and line terminator characters of ECMAScript, each as
    the bytes of its UTF-8 encoding: U+0009 to U+000D, U+0020, U+00A0,
    U+1680, U+2000 to U+200A, U+2028, U+2029, U+202F, U+205F, U+3000 and
    U+FEFF. *)
Definition utf8 (bytes : list nat) : string :=
  string_of_list_ascii (ascii_of_nat <$> bytes).

Definition whiteSpace : list string :=
  utf8 <$>
    [[9]; [10]; [11]; [12]; [13]; [32]; [194; 160]; [225; 154; 128];
     [226; 128; 128]; [226; 128; 129]; [226; 128; 130]; [226; 128; 131];
     [226; 128; 132]; [226; 128; 133]; [226; 128; 134]; [226; 128; 135];
     [226; 128; 136]; [226; 128; 137]; [226; 128; 138];
     [226; 128; 168]; [226; 128; 169]; [226; 128; 175]; [226; 129; 159];
     [227; 128; 128]; [239; 187; 191]].

(** What follows the first character of [s] when it is one of [chars]. *)
Fixpoint after_one_of (chars : list string) (s : string) : option string :=
  match chars with
  | [] => None
  | c :: chars' =>
      if startsWith c s then Some (substring_from (String.length c) s)
      else after_one_of chars' s
  end.

(** [s.trimStart()]; [n] bounds the number of characters dropped. *)
Fixpoint trimStart_go (n : nat) (s : string) : string :=
  match n with
  | O => s
  | S n' =>
      match after_one_of whiteSpace s with
      | Some s' => trimStart_go n' s'
      | None => s
      end
  end.

Definition trimStart (s : string) : string := trimStart_go (String.length s) s.

(** [s.trimEnd()]: nothing is left of a string of white space, and of any
    other string the first byte stays. *)
Fixpoint trimEnd (s : string) : string :=
  match s with
  | EmptyString => EmptyString
  | String a s' =>
      match trimStart s with
      | EmptyString => EmptyString
      | _ => String a (trimEnd s')
      end
  end.

(** [s.trim()] *)
Definition trim (s : string) : string := trimEnd (trimStart s).

(** [s.split('\n')] *)
Fixpoint split_lines_go (cur : string) (s : string) : list string :=
  match s with
  | EmptyString => [String.rev cur]
  | String a s' =>
      if decide (a = "010"%char) then String.rev cur :: split_lines_go EmptyString s'
      else split_lines_go (String a cur) s'
  end.

Definition split_lines (s : string) : list string := split_lines_go EmptyString s.

(** [[...new Set(l)]]: duplicates dropped, first occurrences kept in order. *)
Fixpoint dedupe_go (seen l : list string) : list string :=
  match l with
  | [] => []
  | x :: l' => if decide (x ∈ seen) then dedupe_go seen l'
               else x :: dedupe_go (x :: seen) l'
  end.

Definition dedupe (l : list string) : list string := dedupe_go [] l.

(** [parseInt(s)]: optional sign, then a [0x] prefix with hexadecimal digits
    or decimal digits up to the first other character; [None] is [NaN].  The
    value is the integer the digits denote.  The number JavaScript holds is
    that integer up to [MAX_SAFE_INTEGER] and the nearest double beyond,
    which has the same sign. *)
Definition hex_digit (a : ascii) : option Z :=
  let code := Z.of_N (N_of_ascii a) in
  if (48 <=? code)%Z && (code <=? 57)%Z then Some (code - 48)%Z
  else if (97 <=? code)%Z && (code <=? 102)%Z then Some (code - 87)%Z
  else if (65 <=? code)%Z && (code <=? 70)%Z then Some (code - 55)%Z
  else None.

Definition digit (radix : Z) (a : ascii) : option Z :=
  match hex_digit a with
  | Some d => if (d <? radix)%Z then Some d else None
  | None => None
  end.

Fixpoint digits_go (radix : Z) (acc : option Z) (s : string) : option Z :=
  match s with
  | EmptyString => acc
  | String a s' =>
      match digit radix a with
      | Some d => digits_go radix (Some (from_option id 0 acc * radix + d))%Z s'
      | None => acc
      end
  end.

Definition parseInt (s : string) : option Z :=
  let s := trimStart s in
  let '(neg, s) :=
    match s with
    | String "-" s' => (true, s')
    | String "+" s' => (false, s')
    | _ => (false, s)
    end in
  let v :=
    if startsWith "0x" s || startsWith "0X" s
    then digits_go 16 None (substring_from 2 s)
    else digits_go 10 None s in
  (fun z => if neg then - z else z)%Z <$> v.


(** [x > 0] on a number that may be [NaN] *)
Definition gt0 (v : option Z) : bool :=
  match v with Some z => (0 <? z)%Z | None => false end.

End Js.

(** ** Settings ([GitCollabSettings], [DEFAULT_SETTINGS] of main.ts) *)

Record GitCollabSettings := mkSettings {
  isReadOnlyMode : bool;
  repositoryUrl : string;
  isRepositoryConnected : bool;
  currentBranch : string;
  userEmail : string;
  userName : string;
  mainBranch : string;
  availableBranches : list string;
  lastWorkingBranch : string;
  repositoryTokens : gmap string string
}.

Definition DEFAULT_SETTINGS : GitCollabSettings :=
  {| isReadOnlyMode := true;
     repositoryUrl := "";
     isRepositoryConnected := false;
     currentBranch := "main";
     userEmail := "";
     userName := "";
     mainBranch := "main";
     availableBranches := ["main"];
     lastWorkingBranch := "";
     repositoryTokens := ∅ |}.

Definition set_isReadOnlyMode (v : bool) (s : GitCollabSettings) :=
  mkSettings v (repositoryUrl s) (isRepositoryConnected s) (currentBranch s)
    (userEmail s) (userName s) (mainBranch s) (availableBranches s)
    (lastWorkingBranch s) (repositoryTokens s).

Definition set_repositoryUrl (v : string) (s : GitCollabSettings) :=
  mkSettings (isReadOnlyMode s) v (isRepositoryConnected s) (currentBranch s)
    (userEmail s) (userName s) (mainBranch s) (availableBranches s)
    (lastWorkingBranch s) (repositoryTokens s).

Definition set_isRepositoryConnected (v : bool) (s : GitCollabSettings) :=
  mkSettings (isReadOnlyMode s) (repositoryUrl s) v (currentBranch s)
    (userEmail s) (userName s) (mainBranch s) (availableBranches s)
    (lastWorkingBranch s) (repositoryTokens s).

Definition set_currentBranch (v : string) (s : GitCollabSettings) :=
  mkSettings (isReadOnlyMode s) (repositoryUrl s) (isRepositoryConnected s) v
    (userEmail s) (userName s) (mainBranch s) (availableBranches s)
    (lastWorkingBranch s) (repositoryTokens s).

Definition set_mainBranch (v : string) (s : GitCollabSettings) :=
  mkSettings (isReadOnlyMode s) (repositoryUrl s) (isRepositoryConnected s)
    (currentBranch s) (userEmail s) (userName s) v (availableBranches s)
    (lastWorkingBranch s) (repositoryTokens s).

Definition set_availableBranches (v : list string) (s : GitCollabSettings) :=
  mkSettings (isReadOnlyMode s) (repositoryUrl s) (isRepositoryConnected s)
    (currentBranch s) (userEmail s) (userName s) (mainBranch s) v
    (lastWorkingBranch s) (repositoryTokens s).

Definition set_lastWorkingBranch (v : string) (s : GitCollabSettings) :=
  mkSettings (isReadOnlyMode s) (repositoryUrl s) (isRepositoryConnected s)
    (currentBranch s) (userEmail s) (userName s) (mainBranch s)
    (availableBranches s) v (repositoryTokens s).

Definition set_repositoryTokens (v : gmap string string) (s : GitCollabSettings) :=
  mkSettings (isReadOnlyMode s) (repositoryUrl s) (isRepositoryConnected s)
    (currentBranch s) (userEmail s) (userName s) (mainBranch s)
    (availableBranches s) (lastWorkingBranch s) v.

(** ** External calls *)

(** The subprocess, file-system and host calls the modelled methods make. *)
Inductive Call :=
  | GitBranchShowCurrent
  | GitCheckout (branch : string)
  | GitCheckoutQuoted (branch : string)
  | GitCheckoutNew (branch : string)
  | GitBranchDelete (branch : string)
  | GitBranchAll
  | GitStatusPorcelain
  | GitFetchOrigin
  | GitRevListCount (branch : string)
  | GitPullOrigin (branch : string)
  | GitPushOrigin (branch : string)
  | GitClone (url dir : string)
  | GitConfigUserName (name : string)
  | GitConfigUserEmail (email : string)
  | FsReaddir (path : string)
  | FsStat (path : string)
  | FsRm (path : string)
  | FsUnlink (path : string)
  | FsRename (src dst : string)
  | FsRmdir (path : string)
  | FsAccess (path : string)
  | FsReadFile (path : string)
  | FsWriteFile (path content : string)
  | AdapterList
  | WorkspaceTrigger (event : string).

Global Instance Call_eq_dec : EqDecision Call.
Proof. solve_decision. Defined.

(** A word between double quotes, as the command lines quote it. *)
Definition quoted (s : string) : string :=
  let q := String (ascii_of_nat 34) EmptyString in q +:+ s +:+ q.

(** The command line handed to [execAsync], or the name of the call. *)
Definition command_line (c : Call) : string :=
  match c with
  | GitBranchShowCurrent => "git branch --show-current"
  | GitCheckout b => "git checkout " +:+ b
  | GitCheckoutQuoted b => "git checkout " +:+ quoted b
  | GitCheckoutNew b => "git checkout -b " +:+ b
  | GitBranchDelete b => "git branch -d " +:+ b
  | GitBranchAll => "git branch -a"
  | GitStatusPorcelain => "git status --porcelain"
  | GitFetchOrigin => "git fetch origin"
  | GitRevListCount b => "git rev-list --count HEAD..origin/" +:+ b
  | GitPullOrigin b => "git pull origin " +:+ b
  | GitPushOrigin b => "git push origin " +:+ b
  | GitClone u d => "git clone " +:+ quoted u +:+ " " +:+ quoted d
  | GitConfigUserName n => "git config user.name " +:+ quoted n
  | GitConfigUserEmail e => "git config user.email " +:+ quoted e
  | FsReaddir p => "readdir " +:+ p
  | FsStat p => "stat " +:+ p
  | FsRm p => "rm " +:+ p
  | FsUnlink p => "unlink " +:+ p
  | FsRename a b => "rename " +:+ a +:+ " " +:+ b
  | FsRmdir p => "rmdir " +:+ p
  | FsAccess p => "access " +:+ p
  | FsReadFile p => "readFile " +:+ p
  | FsWriteFile p _ => "writeFile " +:+ p
  | AdapterList => "adapter.list"
  | WorkspaceTrigger e => "workspace.trigger " +:+ e
  end.

(** ** The plugin object and its surroundings *)

(** What the modelled methods read from outside the plugin: the kind of the
    vault adapter, the git repository and the vault directory.  [gitHead] is
    the branch [git branch --show-current] names, empty on a detached HEAD;
    the [...Out] fields are the texts the git queries print; the directory
    listings and [randomHex] are what [readdir] and [crypto.randomBytes]
    give back; [gitignore] is the content of the vault's [.gitignore], the
    one file whose presence is followed.  The listings are inputs: removing
    and renaming files does not update them.

    The last three fields say how the calls of a run go, by the index of
    the call.  [faults n] says that the [n]-th call fails.  [lands n name]
    is the branch a [git checkout name] made as the [n]-th call leaves
    checked out when it succeeds: [name] itself when it names a branch, and
    something else when git takes it for [HEAD], a tag, [-] or a path.
    [errorMessage n] is the message of the error the [n]-th call throws
    when it fails. *)
Record World := mkWorld {
  isFileSystemAdapter : bool;
  basePath : string;
  gitHead : string;
  statusOut : string;
  behindOut : string;
  branchListOut : string;
  cloneHead : string;
  vaultFiles : list string;
  clonedFiles : list string;
  isDirectory : string → bool;
  gitignore : option string;
  randomHex : string;
  faults : nat → bool;
  lands : nat → string → string;
  errorMessage : nat → string
}.

Definition set_gitHead (b : string) (w : World) : World :=
  mkWorld (isFileSystemAdapter w) (basePath w) b (statusOut w) (behindOut w)
    (branchListOut w) (cloneHead w) (vaultFiles w) (clonedFiles w)
    (isDirectory w) (gitignore w) (randomHex w) (faults w) (lands w)
    (errorMessage w).

Definition set_gitignore (c : option string) (w : World) : World :=
  mkWorld (isFileSystemAdapter w) (basePath w) (gitHead w) (statusOut w)
    (behindOut w) (branchListOut w) (cloneHead w) (vaultFiles w)
    (clonedFiles w) (isDirectory w) c (randomHex w) (faults w) (lands w)
    (errorMessage w).

Inductive Modal := BranchSelectionModal | SaveChangesModal.

Record Plugin := mkPlugin {
  settings : GitCollabSettings;
  savedData : GitCollabSettings;
  isGitOperationInProgress : bool;
  notices : list string;
  modals : list Modal;
  calls : list Call;
  world : World
}.

(** ** Computations *)

Inductive Completion (A : Type) :=
  | Normal (a : A)
  | Throw (message : string).
Global Arguments Normal {A} a.
Global Arguments Throw {A} message.

Definition M (A : Type) : Type := Plugin → Completion A * Plugin.

Definition ret {A} (a : A) : M A := λ p, (Normal a, p).

Definition bind {A B} (m : M A) (k : A → M B) : M B :=
  λ p, match m p with
       | (Normal a, p') => k a p'
       | (Throw e, p') => (Throw e, p')
       end.

Notation "'let*' x ':=' m 'in' k" := (bind m (λ x, k))
  (at level 10, x name, m at level 100, k at level 200).
Notation "m '>>' k" := (bind m (λ _, k))
  (at level 100, k at level 200, right associativity).

(** [try { m } catch (error) { h error.message }] *)
Definition try_catch {A} (m : M A) (h : string → M A) : M A :=
  λ p, match m p with
       | (Normal a, p') => (Normal a, p')
       | (Throw e, p') => h e p'
       end.

(** [try { m } finally { f }] *)
Definition try_finally {A} (m : M A) (f : M unit) : M A :=
  λ p, match m p with
       | (r, p') =>
           match f p' with
           | (Normal _, p'') => (r, p'')
           | (Throw e, p'') => (Throw e, p'')
           end
       end.

Definition getSettings : M GitCollabSettings := λ p, (Normal (settings p), p).

Definition getWorld : M World := λ p, (Normal (world p), p).

Definition updateSettings (f : GitCollabSettings → GitCollabSettings) : M unit :=
  λ p, (Normal tt,
        mkPlugin (f (settings p)) (savedData p) (isGitOperationInProgress p)
          (notices p) (modals p) (calls p) (world p)).

Definition setGitOperationInProgress (v : bool) : M unit :=
  λ p, (Normal tt,
        mkPlugin (settings p) (savedData p) v (notices p) (modals p) (calls p)
          (world p)).

(** [new Notice(text)] *)
Definition Notice (text : string) : M unit :=
  λ p, (Normal tt,
        mkPlugin (settings p) (savedData p) (isGitOperationInProgress p)
          (notices p ++ [text]) (modals p) (calls p) (world p)).

(** [new SomeModal(app, plugin).open()] *)
Definition openModal (m : Modal) : M unit :=
  λ p, (Normal tt,
        mkPlugin (settings p) (savedData p) (isGitOperationInProgress p)
          (notices p) (modals p ++ [m]) (calls p) (world p)).

(** [saveSettings] of main.ts: [await this.saveData(this.settings)] *)
Definition saveSettings : M unit :=
  λ p, (Normal tt,
        mkPlugin (settings p) (settings p) (isGitOperationInProgress p)
          (notices p) (modals p) (calls p) (world p)).

Definition LF : string := String "010"%char EmptyString.

(** What a call that succeeds as the [n]-th call of the run changes
    outside the plugin. *)
Definition effect_of (c : Call) (n : nat) (w : World) : World :=
  match c with
  | GitCheckout b | GitCheckoutQuoted b => set_gitHead (lands w n b) w
  | GitCheckoutNew b => set_gitHead b w
  | GitClone _ _ => set_gitHead (cloneHead w) w
  | FsWriteFile _ content => set_gitignore (Some content) w
  | _ => w
  end.

(** The message [child_process.exec] gives the error of a command that
    ran and ended in failure, having written [stderr] on its standard
    error. *)
Definition exec_failure (c : Call) (stderr : string) : string :=
  "Command failed: " +:+ command_line c +:+ LF +:+ stderr.

(** A call the state of the world refuses whatever [faults] says:
    [access] on a [.gitignore] that is not there. *)
Definition refused (c : Call) (w : World) : bool :=
  match c with
  | FsAccess _ => bool_decide (gitignore w = None)
  | _ => false
  end.

(** One external call: it is logged; it throws when the world refuses it or
    when [faults] says that the call with its index fails; otherwise it takes
    effect. *)
Definition call (c : Call) : M unit :=
  λ p, let w := world p in
       let n := length (calls p) in
       if refused c w || faults w n
       then (Throw (errorMessage w n),
             mkPlugin (settings p) (savedData p) (isGitOperationInProgress p)
               (notices p) (modals p) (calls p ++ [c]) w)
       else (Normal tt,
             mkPlugin (settings p) (savedData p) (isGitOperationInProgress p)
               (notices p) (modals p) (calls p ++ [c]) (effect_of c n w)).

(** The text a successful call prints or returns. *)
Definition stdout_of (c : Call) (w : World) : string :=
  match c with
  | GitBranchShowCurrent => gitHead w +:+ LF
  | GitStatusPorcelain => statusOut w
  | GitRevListCount _ => behindOut w
  | GitBranchAll => branchListOut w
  | _ => EmptyString
  end.

(** [const { stdout } = await execAsync(cmd, { cwd: vaultPath })] *)
Definition execAsync (c : Call) : M string :=
  let* _ := call c in
  let* w := getWorld in
  ret (stdout_of c w).

(** [adapter instanceof FileSystemAdapter] *)
Definition adapterIsFileSystem : M bool :=
  let* w := getWorld in ret (isFileSystemAdapter w).

(** [!!x] and [x || d] on an optional string *)
Definition truthy (x : option string) : bool :=
  match x with
  | None | Some EmptyString => false
  | Some _ => true
  end.

Definition or_else (x : option string) (d : string) : string :=
  match x with
  | None | Some EmptyString => d
  | Some s => s
  end.

(** ** Credential store (main.ts) *)

(** [normalizeRepositoryUrl] *)
Definition normalizeRepositoryUrl (url : string) : string :=
  if Js.includes "github.com" url then
    let normalized := Js.strip_git_suffix (Js.strip_scheme url) in
    if Js.startsWith "github.com/" normalized
    then "https://github.com/" +:+ Js.substring_from 11 normalized
    else url
  else url.

(** [getRepositoryToken]; [None] is [undefined]. *)
Definition getRepositoryToken (repositoryUrl : string) : M (option string) :=
  let normalizedUrl := normalizeRepositoryUrl repositoryUrl in
  let* s := getSettings in
  ret (repositoryTokens s !! normalizedUrl).

(** [setRepositoryToken] *)
Definition setRepositoryToken (repositoryUrl token : string) : M unit :=
  let normalizedUrl := normalizeRepositoryUrl repositoryUrl in
  updateSettings (λ s, set_repositoryTokens (<[normalizedUrl := token]> (repositoryTokens s)) s) >>
  saveSettings.

(** [removeRepositoryToken] *)
Definition removeRepositoryToken (repositoryUrl : string) : M unit :=
  let normalizedUrl := normalizeRepositoryUrl repositoryUrl in
  updateSettings (λ s, set_repositoryTokens (delete normalizedUrl (repositoryTokens s)) s) >>
  saveSettings.

(** ** Branch rules (git.ts) *)

(** [GitOperations.validateAndEnforceBranchRules] *)
Definition validateAndEnforceBranchRules : M bool :=
  let* s := getSettings in
  if negb (isRepositoryConnected s) then ret true
  else
    try_catch
      (let* fs := adapterIsFileSystem in
       if negb fs then ret false
       else
         let* currentGitBranch := execAsync GitBranchShowCurrent in
         let actualBranch := Js.trim currentGitBranch in
         (* VALIDATION: the main branch setting *)
         let* s := getSettings in
         (if bool_decide (mainBranch s ≠ "main") && bool_decide (actualBranch = "main")
          then updateSettings (set_mainBranch "main") >> saveSettings
          else ret tt) >>
         let* s := getSettings in
         (* RULE 1: read-only mode must be on the main branch *)
         if isReadOnlyMode s && bool_decide (actualBranch ≠ mainBranch s) then
           execAsync (GitCheckout (mainBranch s)) >>
           updateSettings (set_currentBranch (mainBranch s)) >>
           saveSettings >>
           Notice ("🔒 Switched to " +:+ mainBranch s +:+ " for read-only mode") >>
           ret true
         (* RULE 2: edit mode must not be on the main branch *)
         else if negb (isReadOnlyMode s) && bool_decide (actualBranch = mainBranch s) then
           updateSettings (set_isReadOnlyMode true) >>
           saveSettings >>
           Notice ("🚫 Cannot edit on " +:+ mainBranch s +:+
                   " branch. Switched to read-only mode.") >>
           ret false
         else
           (* the stored current branch follows the repository *)
           (if bool_decide (actualBranch ≠ currentBranch s)
            then updateSettings (set_currentBranch actualBranch) >> saveSettings
            else ret tt) >>
           ret true)
      (λ _, ret false).

(** [GitOperations.checkForUncommittedChanges] *)
Definition checkForUncommittedChanges : M bool :=
  try_catch
    (let* s := getSettings in
     if negb (isRepositoryConnected s) then ret false
     else
       let* fs := adapterIsFileSystem in
       if negb fs then ret false
       else
         let* statusOutput := execAsync GitStatusPorcelain in
         ret (bool_decide (0 < String.length (Js.trim statusOutput))))
    (λ _, ret false).

(** [GitOperations.switchToBranch] *)
Definition switchToBranch (branchName : string) : M bool :=
  try_catch
    (let* s := getSettings in
     if negb (isRepositoryConnected s) then
       Notice "No repository connected" >> ret false
     (* CRITICAL VALIDATION: is the switch allowed *)
     else if isReadOnlyMode s && bool_decide (branchName ≠ mainBranch s) then
       Notice ("🚫 Cannot switch to " +:+ branchName +:+ " in read-only mode. Only " +:+
               mainBranch s +:+ " is allowed.") >>
       ret false
     else if negb (isReadOnlyMode s) && bool_decide (branchName = mainBranch s) then
       Notice ("🚫 Cannot switch to " +:+ mainBranch s +:+
               " in edit mode. Please use read-only mode for " +:+ mainBranch s +:+ ".") >>
       ret false
     else
       let* fs := adapterIsFileSystem in
       if negb fs then Notice "Cannot access vault directory" >> ret false
       else
         execAsync (GitCheckoutQuoted branchName) >>
         updateSettings (set_currentBranch branchName) >>
         saveSettings >>
         validateAndEnforceBranchRules >>
         Notice ("Switched to branch: " +:+ branchName) >>
         ret true)
    (λ message, Notice ("Failed to switch to branch: " +:+ message) >> ret false).

(** ** Mode transitions (readonly.ts) *)

(** [ReadOnlyOperations.enableEditMode]; the inner computation answers
    whether the method goes on after the branch check and the checkout. *)
Definition enableEditMode (branchName : option string) : M unit :=
  let* s := getSettings in
  if isRepositoryConnected s && negb (truthy branchName) then
    openModal BranchSelectionModal
  else
    let* goes_on :=
      (* CRITICAL: edit mode is not allowed on the main branch *)
      (if isRepositoryConnected s then
         let targetBranch := or_else branchName (currentBranch s) in
         if bool_decide (targetBranch = mainBranch s) then
           Notice ("🚫 Cannot enable edit mode on " +:+ mainBranch s +:+
                   " branch. Please select a different branch.") >>
           ret false
         else
           try_catch
             (let* fs := adapterIsFileSystem in
              (if fs then execAsync (GitCheckout targetBranch) >> ret tt else ret tt) >>
              ret true)
             (λ message,
                Notice ("Failed to switch to branch " +:+ targetBranch +:+ ": " +:+ message) >>
                ret false)
       else ret true) in
    if negb goes_on then ret tt
    else
      updateSettings (set_isReadOnlyMode false) >>
      let* s := getSettings in
      (if isRepositoryConnected s && truthy branchName then
         let b := or_else branchName EmptyString in
         updateSettings (set_currentBranch b) >>
         updateSettings (set_lastWorkingBranch b) >>
         Notice ("✏️ Edit Mode enabled on branch: " +:+ b)
       else Notice "✏️ Edit Mode enabled - You can now modify files") >>
      saveSettings >>
      validateAndEnforceBranchRules >>
      ret tt.

(** [ReadOnlyOperations.forceEnableReadOnlyMode]; the inner computation
    answers whether the method goes on after the checkout of main. *)
Definition forceEnableReadOnlyMode : M unit :=
  try_catch
    (updateSettings (set_isReadOnlyMode true) >>
     let* s := getSettings in
     let* goes_on :=
       (if isRepositoryConnected s then
          try_catch
            (let* fs := adapterIsFileSystem in
             if fs then
               (* CRITICAL: read-only mode must be on the main branch *)
               execAsync (GitCheckout (mainBranch s)) >>
               updateSettings (set_currentBranch (mainBranch s)) >>
               Notice ("🔒 Read-Only Mode enabled - Switched to " +:+ mainBranch s +:+
                       " branch") >>
               ret true
             else
               updateSettings (set_currentBranch (mainBranch s)) >>
               Notice "🔒 Read-Only Mode enabled - Repository protection active" >>
               ret true)
            (λ _,
               Notice ("❌ Cannot enable read-only mode: Failed to switch to " +:+
                       mainBranch s +:+ " branch") >>
               updateSettings (set_isReadOnlyMode false) >>
               ret false)
        else Notice "🔒 Read-Only Mode enabled - Vault is protected" >> ret true) in
     if negb goes_on then ret tt
     else
       saveSettings >>
       validateAndEnforceBranchRules >>
       ret tt)
    (λ _, Notice "⚠️ Error enabling read-only mode. Some features may not work correctly.").

(** [ReadOnlyOperations.enableReadOnlyModeWithBranch]; the inner computation
    answers whether the save dialog was opened instead of switching. *)
Definition enableReadOnlyModeWithBranch : M unit :=
  try_catch
    (let* s := getSettings in
     let* asked :=
       (if isRepositoryConnected s && negb (isReadOnlyMode s) then
          let* hasChanges := checkForUncommittedChanges in
          if hasChanges then openModal SaveChangesModal >> ret true
          else ret false
        else ret false) in
     if asked then ret tt
     else forceEnableReadOnlyMode)
    (λ _, Notice "⚠️ Error switching to read-only mode. Some operations may not work correctly.").

(** ** Synchronisation with the remote (git.ts) *)

Definition throw {A} (message : string) : M A := λ p, (Throw message, p).

(** [for (const x of l) { f x }] *)
Fixpoint for_each {A} (l : list A) (f : A → M unit) : M unit :=
  match l with
  | [] => ret tt
  | x :: l' => f x >> for_each l' f
  end.

(** [path.join(dir, name)] on paths that need no normalising *)
Definition path_join (dir name : string) : string := dir +:+ "/" +:+ name.

(** [await fs.promises.readdir(path)] *)
Definition readdir (path : string) : M (list string) :=
  call (FsReaddir path) >>
  let* w := getWorld in
  ret (if bool_decide (path = basePath w) then vaultFiles w else clonedFiles w).

(** [(await fs.promises.stat(path)).isDirectory()] *)
Definition stat_isDirectory (path : string) : M bool :=
  call (FsStat path) >>
  let* w := getWorld in
  ret (isDirectory w path).

(** [await fs.promises.readFile(path, 'utf8')] *)
Definition readFile (path : string) : M string :=
  call (FsReadFile path) >>
  let* w := getWorld in
  ret (from_option id EmptyString (gitignore w)).

(** [GitOperations.pushChanges]; the computation in the middle answers
    [Some r] when the method returns [r] from inside the behind check. *)
Definition pushChanges : M bool :=
  try_catch
    (let* s := getSettings in
     if negb (isRepositoryConnected s) then ret false
     else
       let* fs := adapterIsFileSystem in
       if negb fs then ret false
       else
         let currentBranch := currentBranch s in
         (* first, fetch the latest changes from the remote *)
         try_catch (execAsync GitFetchOrigin >> ret tt) (λ _, ret tt) >>
         (* is the local branch behind the remote *)
         let* returned :=
           try_catch
             (let* behindCount := execAsync (GitRevListCount currentBranch) in
              if Js.gt0 (Js.parseInt (Js.trim behindCount)) then
                try_finally
                  (try_catch
                     (setGitOperationInProgress true >>
                      execAsync (GitPullOrigin currentBranch) >>
                      Notice ("📥 Pulled " +:+ Js.trim behindCount +:+
                              " update(s) from remote before pushing") >>
                      ret None)
                     (λ _,
                        Notice "❌ Cannot push: Local branch is behind remote and pull failed. Please resolve conflicts manually." >>
                        ret (Some false)))
                  (setGitOperationInProgress false)
              else ret None)
             (λ _, ret None) in
         match returned with
         | Some r => ret r
         | None =>
             (* now push the changes *)
             execAsync (GitPushOrigin currentBranch) >>
             ret true
         end)
    (λ _, ret false).

(** [GitOperations.pullLatestChanges] *)
Definition pullLatestChanges : M bool :=
  try_catch
    (let* fs := adapterIsFileSystem in
     if negb fs then
       Notice "Cannot access vault directory for Git operations" >> ret false
     else
       setGitOperationInProgress true >>
       try_finally
         (let* s := getSettings in
          execAsync (GitCheckout (mainBranch s)) >>
          let* s := getSettings in
          execAsync (GitPullOrigin (mainBranch s)) >>
          let* s := getSettings in
          Notice ("✅ Pulled latest changes from " +:+ mainBranch s) >>
          ret true)
         (setGitOperationInProgress false))
    (λ _, Notice "Failed to pull latest changes" >> ret false).

(** The file [ensureGitignoreExists] writes when there is none. *)
Definition gitignoreContent : string :=
  "# Obsidian configuration (added by Git Collab plugin)" +:+ LF +:+
  ".obsidian/" +:+ LF +:+
  LF +:+
  "# OS generated files" +:+ LF +:+
  ".DS_Store" +:+ LF +:+
  ".DS_Store?" +:+ LF +:+
  "._*" +:+ LF +:+
  ".Spotlight-V100" +:+ LF +:+
  ".Trashes" +:+ LF +:+
  "ehthumbs.db" +:+ LF +:+
  "Thumbs.db" +:+ LF +:+
  LF +:+
  "# Temporary files" +:+ LF +:+
  "*.tmp" +:+ LF +:+
  "*.temp" +:+ LF +:+
  "*~" +:+ LF.

(** [GitOperations.ensureGitignoreExists] *)
Definition ensureGitignoreExists (vaultPath : string) : M unit :=
  try_catch
    (let gitignorePath := vaultPath +:+ "/.gitignore" in
     try_catch
       (call (FsAccess gitignorePath) >>
        let* content := readFile gitignorePath in
        if negb (Js.includes ".obsidian" content) then
          let newContent :=
            Js.trim content +:+ LF +:+ LF +:+
            "# Obsidian configuration (added by Git Collab plugin)" +:+ LF +:+
            ".obsidian/" +:+ LF in
          call (FsWriteFile gitignorePath newContent) >>
          Notice ".gitignore updated to exclude .obsidian folder"
        else ret tt)
       (λ _,
          call (FsWriteFile gitignorePath gitignoreContent) >>
          Notice ".gitignore created to exclude .obsidian folder"))
    (λ _, Notice "Warning: Could not create .gitignore file").

(** [GitOperations.getAuthenticatedUrl] *)
Definition getAuthenticatedUrl (url token : string) : string :=
  if Js.includes "github.com" url then
    let urlParts :=
      Js.replace ".git" EmptyString (Js.replace "https://github.com/" EmptyString url) in
    if bool_decide (token = EmptyString)
    then "https://github.com/" +:+ urlParts +:+ ".git"
    else "https://" +:+ token +:+ "@github.com/" +:+ urlParts +:+ ".git"
  else url.

(** The branch names read off the output of [git branch -a]. *)
Definition branches_of (allBranches : string) : list string :=
  let lines := Js.split_lines allBranches in
  let named := (λ b, Js.trim (Js.replace "*" EmptyString b)) <$> lines in
  let kept :=
    filter (λ b, b ≠ EmptyString ∧ Js.startsWith "remotes/" b = false) named in
  let short := Js.replace "origin/" EmptyString <$> kept in
  Js.dedupe (filter (λ b, b ≠ "master") short).

(** [GitOperations.cloneRepository] *)
Definition cloneRepository (url token : string) : M bool :=
  (* the flag is set early, before any file operation *)
  setGitOperationInProgress true >>
  try_finally
    (try_catch
       (Notice "Cloning repository..." >>
        let* fs := adapterIsFileSystem in
        if negb fs then Notice "Cannot access vault directory" >> ret false
        else
          let* w := getWorld in
          let vaultPath := basePath w in
          let* files :=
            try_catch
              (let* files := readdir vaultPath in ret (Some files))
              (λ _, Notice "Cannot read vault directory" >> ret None) in
          match files with
          | None => ret false
          | Some files =>
              (* remove everything but .obsidian and .git *)
              let filesToRemove :=
                filter (λ file, file ≠ ".obsidian" ∧ file ≠ ".git" ∧
                                Js.startsWith ".tmp" file = false ∧
                                Js.startsWith ".temp" file = false) files in
              for_each filesToRemove (λ file,
                let filePath := path_join vaultPath file in
                try_catch
                  (let* dir := stat_isDirectory filePath in
                   if dir then call (FsRm filePath) else call (FsUnlink filePath))
                  (λ _, ret tt)) >>
              (* the .git directory goes too *)
              let gitDirPath := path_join vaultPath ".git" in
              try_catch
                (let* dir := stat_isDirectory gitDirPath in
                 if dir then call (FsRm gitDirPath) else ret tt)
                (λ _, ret tt) >>
              (* clone into a temporary directory first *)
              let tempDirName := ".temp-clone-" +:+ randomHex w in
              let tempDir := path_join vaultPath tempDirName in
              try_catch
                (let authenticatedUrl := getAuthenticatedUrl url token in
                 execAsync (GitClone authenticatedUrl tempDir) >>
                 let* clonedFiles := readdir tempDir in
                 for_each clonedFiles (λ file,
                   call (FsRename (path_join tempDir file) (path_join vaultPath file))) >>
                 try_catch (call (FsRmdir tempDir)) (λ _, ret tt) >>
                 ensureGitignoreExists vaultPath >>
                 let* s := getSettings in
                 (if bool_decide (userName s ≠ EmptyString)
                  then call (GitConfigUserName (userName s)) else ret tt) >>
                 (if bool_decide (userEmail s ≠ EmptyString)
                  then call (GitConfigUserEmail (userEmail s)) else ret tt) >>
                 (* the current branch, which is to be main *)
                 try_catch
                   (let* currentBranch := execAsync GitBranchShowCurrent in
                    let branchName := Js.trim currentBranch in
                    (if bool_decide (branchName = "master") then
                       call (GitCheckoutNew "main") >>
                       call (GitBranchDelete "master") >>
                       Notice "Migrated from master to main branch"
                     else ret tt) >>
                    updateSettings (set_currentBranch
                      (if bool_decide (branchName = "master") then "main" else branchName)) >>
                    updateSettings (set_mainBranch "main"))
                   (λ _,
                      updateSettings (set_currentBranch "main") >>
                      updateSettings (set_mainBranch "main")) >>
                 (* all branches *)
                 try_catch
                   (let* allBranches := execAsync GitBranchAll in
                    updateSettings (set_availableBranches (branches_of allBranches)))
                   (λ _, updateSettings (set_availableBranches ["main"])) >>
                 (* the repository configuration *)
                 updateSettings (set_repositoryUrl url) >>
                 setRepositoryToken url token >>
                 updateSettings (set_isRepositoryConnected true) >>
                 saveSettings >>
                 call AdapterList >>
                 call (WorkspaceTrigger "layout-change") >>
                 Notice "Repository cloned successfully! Files should now appear in your vault." >>
                 ret true)
                (λ cloneError,
                   try_catch (call (FsRmdir tempDir)) (λ _, ret tt) >>
                   throw cloneError)
          end)
       (λ message, Notice ("Failed to clone repository: " +:+ message) >> ret false))
    (setGitOperationInProgress false).

(** ** Further operations

    The other methods and handlers that work on the same state: the token
    migration of main.ts, the settings tab, the handlers of the modals that
    chain the transitions, and the background check for remote updates. *)

(** [GitOperations.isPublicRepository] *)
Definition isPublicRepository (url : string) : bool :=
  bool_decide (url ≠ EmptyString)
  && negb (Js.includes "private" url)
  && negb (Js.includes "github.com:" url).

(** The loop of [migrateRepositoryTokens] over the entries of the token
    object, with its two accumulators. *)
Fixpoint migrate_entries (entries : list (string * string))
    (migratedTokens : gmap string string) (hasChanges : bool)
    : gmap string string * bool :=
  match entries with
  | [] => (migratedTokens, hasChanges)
  | (url, token) :: rest =>
      let normalizedUrl := normalizeRepositoryUrl url in
      if bool_decide (normalizedUrl ≠ url)
      then migrate_entries rest (<[normalizedUrl := token]> migratedTokens) true
      else migrate_entries rest (<[url := token]> migratedTokens) hasChanges
  end.

(** [migrateRepositoryTokens] of main.ts; [entries] is
    [Object.entries(this.settings.repositoryTokens)], in the order the
    object gives its keys. *)
Definition migrateRepositoryTokens (entries : list (string * string)) : M unit :=
  let '(migratedTokens, hasChanges) := migrate_entries entries ∅ false in
  if hasChanges
  then updateSettings (set_repositoryTokens migratedTokens) >> saveSettings
  else ret tt.

(** The toggle of the settings tab (settings.ts). *)
Definition setDefaultReadOnly (value : bool) : M unit :=
  updateSettings (set_isReadOnlyMode value) >>
  saveSettings.

(** The [Disconnect] button of the settings tab (settings.ts). *)
Definition disconnectRepository : M unit :=
  let* s := getSettings in
  let currentRepoUrl := repositoryUrl s in
  updateSettings (set_isRepositoryConnected false) >>
  updateSettings (set_repositoryUrl EmptyString) >>
  (if bool_decide (currentRepoUrl ≠ EmptyString)
   then removeRepositoryToken currentRepoUrl
   else ret tt) >>
  saveSettings >>
  Notice "Repository disconnected".


(** What [PullRequestManagerModal] runs one second after a merge
    (modals.ts); the delay is not modelled. *)
Definition postMergeSync : M unit :=
  try_catch
    (enableReadOnlyModeWithBranch >>
     pullLatestChanges >>
     ret tt)
    (λ _, Notice "⚠️ Merge completed, but there was an issue updating the local repository. You may need to manually pull changes.").

(** The [Clone Repository] button of [CloneRepositoryModal] (modals.ts),
    with the two fields of the modal as they are at the click. *)
Definition cloneButtonClick (repositoryUrl githubToken : string) : M unit :=
  let* savedToken := getRepositoryToken repositoryUrl in
  let finalToken :=
    if bool_decide (githubToken ≠ EmptyString) then Some githubToken else savedToken in
  if bool_decide (repositoryUrl = EmptyString) then
    Notice "Please provide a repository URL"
  else if negb (truthy finalToken) && negb (isPublicRepository repositoryUrl) then
    Notice "Private repositories require a GitHub token. Leave token empty for public repositories."
  else
    cloneRepository repositoryUrl (or_else finalToken EmptyString) >>
    ret tt.




(** The branch names [refreshAvailableBranches] reads off the output of
    [git branch]. *)
Definition local_branches_of (allBranches : string) : list string :=
  let lines := Js.split_lines allBranches in
  let named := (λ b, Js.trim (Js.replace "*" EmptyString b)) <$> lines in
  Js.dedupe (filter (λ b, b ≠ EmptyString ∧ b ≠ "master") named).

(** ** The state machine

    The transitions of the plugin as one step function, and what it means
    for a plugin to be in a state the transitions can reach. *)

(** The transitions the plugin offers. *)
Inductive Transition :=
  | EnableEditMode (branchName : option string)
  | EnableReadOnlyModeWithBranch
  | ForceEnableReadOnlyMode
  | SwitchToBranch (branchName : string)
  | ValidateAndEnforceBranchRules.

Definition perform (t : Transition) (p : Plugin) : Plugin :=
  match t with
  | EnableEditMode branchName => (enableEditMode branchName p).2
  | EnableReadOnlyModeWithBranch => (enableReadOnlyModeWithBranch p).2
  | ForceEnableReadOnlyMode => (forceEnableReadOnlyMode p).2
  | SwitchToBranch branchName => (switchToBranch branchName p).2
  | ValidateAndEnforceBranchRules => (validateAndEnforceBranchRules p).2
  end.

(** The central contract: read-only mode exactly on the main branch. *)
Definition coupled (s : GitCollabSettings) : Prop :=
  isReadOnlyMode s = true ↔ currentBranch s = mainBranch s.

(** A name that [trim] leaves as it is. *)
Definition trimmed (b : string) : Prop := Js.trim b = b.


(** A string without a line feed, and a character without one after its
    first byte. *)
Fixpoint no_LF (c : string) : bool :=
  match c with
  | EmptyString => true
  | String a c' => negb (bool_decide (a = "010"%char)) && no_LF c'
  end.

Definition one_line (c : string) : Prop :=
  match c with
  | EmptyString => False
  | String _ c' => no_LF c' = true
  end.

(** [name] is a branch of the repository: a checkout of [name] that
    succeeds leaves [name] checked out. *)
Definition lands_on (w : World) (name : string) : Prop :=
  ∀ n, lands w n name = name.



(** A repository is connected, mode and branch are coupled, and, where git
    can be reached, the stored current branch is the branch checked out. *)
Definition consistent (p : Plugin) : Prop :=
  isRepositoryConnected (settings p) = true
  ∧ coupled (settings p)
  ∧ trimmed (mainBranch (settings p))
  ∧ (isFileSystemAdapter (world p) = true →
     gitHead (world p) = currentBranch (settings p)
     ∧ trimmed (currentBranch (settings p))).




(** ** Concrete plugins *)

Definition no_faults : nat → bool := λ _, false.

(** Only the call with index [n] fails. *)
Definition fail_at (n : nat) : nat → bool := λ k, bool_decide (k = n).

(** A desktop vault whose repository has [branch] checked out, a clean
    working tree and nothing to pull; every name checked out is a branch,
    and the error of a call that fails has an empty message. *)
Definition desktop (branch : string) (f : nat → bool) : World :=
  {| isFileSystemAdapter := true;
     basePath := "/vault";
     gitHead := branch;
     statusOut := EmptyString;
     behindOut := "0" +:+ LF;
     branchListOut := "* main" +:+ LF;
     cloneHead := "main";
     vaultFiles := ["notes.md"; ".obsidian"];
     clonedFiles := [".git"; "README.md"];
     isDirectory := λ path, bool_decide (path = "/vault/.git");
     gitignore := None;
     randomHex := "0a1b2c3d";
     faults := f;
     lands := λ _ name, name;
     errorMessage := λ _, EmptyString |}.

(** The plugin right after [loadSettings]: nothing shown, nothing called,
    no git operation in progress. *)
Definition loaded (s : GitCollabSettings) (w : World) : Plugin :=
  {| settings := s; savedData := s; isGitOperationInProgress := false;
     notices := []; modals := []; calls := []; world := w |}.

(** [DEFAULT_SETTINGS] with a repository connected. *)
Definition connected_settings : GitCollabSettings :=
  set_isRepositoryConnected true
    (set_repositoryUrl "https://github.com/owner/repo.git" DEFAULT_SETTINGS).

(** Connected, in edit mode on the working branch [feature/x]. *)
Definition editing_settings : GitCollabSettings :=
  set_lastWorkingBranch "feature/x"
    (set_currentBranch "feature/x" (set_isReadOnlyMode false connected_settings)).

(** A repository that is [count] commits behind its remote. *)
Definition behind (count : string) (w : World) : World :=
  mkWorld (isFileSystemAdapter w) (basePath w) (gitHead w) (statusOut w)
    (count +:+ LF) (branchListOut w) (cloneHead w) (vaultFiles w)
    (clonedFiles w) (isDirectory w) (gitignore w) (randomHex w) (faults w)
    (lands w) (errorMessage w).

(** A repository with uncommitted changes that [git status --porcelain]
    prints as [status]. *)
Definition dirty (status : string) (w : World) : World :=
  mkWorld (isFileSystemAdapter w) (basePath w) (gitHead w) status
    (behindOut w) (branchListOut w) (cloneHead w) (vaultFiles w)
    (clonedFiles w) (isDirectory w) (gitignore w) (randomHex w) (faults w)
    (lands w) (errorMessage w).

(** A world in which the error of a call that fails has the message
    [message]. *)
Definition reporting (message : string) (w : World) : World :=
  mkWorld (isFileSystemAdapter w) (basePath w) (gitHead w) (statusOut w)
    (behindOut w) (branchListOut w) (cloneHead w) (vaultFiles w)
    (clonedFiles w) (isDirectory w) (gitignore w) (randomHex w) (faults w)
    (lands w) (λ _, message).

(** A repository in which a checkout of [name] succeeds and leaves
    [target] checked out: [HEAD] the branch that was, a tag none. *)
Definition resolving (name target : string) (w : World) : World :=
  mkWorld (isFileSystemAdapter w) (basePath w) (gitHead w) (statusOut w)
    (behindOut w) (branchListOut w) (cloneHead w) (vaultFiles w)
    (clonedFiles w) (isDirectory w) (gitignore w) (randomHex w) (faults w)
    (λ n b, if bool_decide (b = name) then target else lands w n b)
    (errorMessage w).

(** * Properties *)

(** Unfolds the plumbing of the computations. *)
Ltac unfold_M :=
  cbv [bind ret throw try_catch try_finally getSettings getWorld updateSettings
       setGitOperationInProgress Notice openModal saveSettings execAsync call
       adapterIsFileSystem refused].

(** Splits a plugin into its fields, so that the methods compute on it. *)
Ltac open_plugin p :=
  let s := fresh "s" in
  let w := fresh "w" in
  destruct p as [s ? ? ? ? ? w]; destruct s, w; simpl in *; subst.

(** ** Credential store *)

Lemma normalize_https_git :
  normalizeRepositoryUrl "https://github.com/owner/repo.git" = "https://github.com/owner/repo".
Proof. reflexivity. Qed.

Lemma normalize_no_scheme :
  normalizeRepositoryUrl "github.com/owner/repo" = "https://github.com/owner/repo".
Proof. reflexivity. Qed.

Lemma get_after_set (u1 u2 token : string) (p : Plugin) :
  normalizeRepositoryUrl u1 = normalizeRepositoryUrl u2 →
  (getRepositoryToken u2 (setRepositoryToken u1 token p).2).1 = Normal (Some token).
Proof.
  intros Hn. unfold getRepositoryToken, setRepositoryToken. unfold_M. simpl.
  rewrite Hn. by rewrite lookup_insert_eq.
Qed.

(** C5. A token stored under [https://github.com/owner/repo.git] is the one
    read back under [github.com/owner/repo]; and for any two spellings with
    the same normal form, the token stored under one is read back under the
    other, from the one map entry kept under the normal form. *)
Theorem credential_round_trip (token : string) (p : Plugin) :
  (getRepositoryToken "github.com/owner/repo"
     (setRepositoryToken "https://github.com/owner/repo.git" token p).2).1
    = Normal (Some token)
  ∧ ∀ u1 u2 : string,
      normalizeRepositoryUrl u1 = normalizeRepositoryUrl u2 →
      (getRepositoryToken u2 (setRepositoryToken u1 token p).2).1 = Normal (Some token)
      ∧ repositoryTokens (settings (setRepositoryToken u1 token p).2)
        = <[normalizeRepositoryUrl u2 := token]> (repositoryTokens (settings p)).
Proof.
  split.
  - apply get_after_set. reflexivity.
  - intros u1 u2 Hn. split; [by apply get_after_set|].
    unfold setRepositoryToken. unfold_M. simpl. by rewrite Hn.
Qed.

Lemma credential_round_trip_witness :
  (getRepositoryToken "http://github.com/owner/repo"
     (setRepositoryToken "https://github.com/owner/repo.git" "ghp_token"
        (loaded DEFAULT_SETTINGS (desktop "main" no_faults))).2).1
  = Normal (Some "ghp_token").
Proof.
  apply (credential_round_trip "ghp_token"
           (loaded DEFAULT_SETTINGS (desktop "main" no_faults))).
  reflexivity.
Defined.

(** ** Entering edit mode *)

(** C2, as the code has it.  With a repository connected, [enableEditMode]
    on a non-empty branch name equal to [mainBranch] (so on ["main"] when
    [mainBranch] is ["main"]) only shows the notice that the main branch
    cannot be edited: no external call, no setting changed, nothing saved. *)
Theorem enableEditMode_main_rejected (p : Plugin) (b : string) :
  isRepositoryConnected (settings p) = true →
  b ≠ EmptyString →
  b = mainBranch (settings p) →
  enableEditMode (Some b) p =
    (Normal tt,
     mkPlugin (settings p) (savedData p) (isGitOperationInProgress p)
       (notices p ++ ["🚫 Cannot enable edit mode on " +:+ b +:+
                      " branch. Please select a different branch."])
       (modals p) (calls p) (world p)).
Proof.
  intros Hc Hb Hm. open_plugin p.
  unfold enableEditMode. unfold_M. simpl.
  destruct mainBranch0 as [|a m]; [done|]. simpl.
  by rewrite bool_decide_eq_true_2.
Qed.

Lemma enableEditMode_main_rejected_witness :
  enableEditMode (Some "main") (loaded connected_settings (desktop "main" no_faults)) =
    (Normal tt,
     mkPlugin connected_settings connected_settings false
       ["🚫 Cannot enable edit mode on main branch. Please select a different branch."]
       [] [] (desktop "main" no_faults)).
Proof.
  apply (enableEditMode_main_rejected
           (loaded connected_settings (desktop "main" no_faults)) "main");
    [reflexivity | discriminate | reflexivity].
Defined.

(** C2 as stated fails without a repository: from the default settings,
    where [mainBranch] is ["main"], [enableEditMode("main")] turns read-only
    mode off, saves, and shows the notice of an enabled edit mode. *)
Lemma enableEditMode_main_not_connected :
  let p := loaded DEFAULT_SETTINGS (desktop "main" no_faults) in
  let p' := (enableEditMode (Some "main") p).2 in
  mainBranch (settings p) = "main"
  ∧ isReadOnlyMode (settings p) = true
  ∧ isReadOnlyMode (settings p') = false
  ∧ isReadOnlyMode (savedData p') = false
  ∧ notices p' = ["✏️ Edit Mode enabled - You can now modify files"].
Proof. vm_compute. repeat split. Qed.

(** C10. Without a repository, [enableEditMode], with or without a branch
    name, turns read-only mode off and saves the settings; it makes no
    external call, compares nothing with the main branch, and leaves the
    other settings as they were. *)
Theorem enableEditMode_not_connected (p : Plugin) (branchName : option string) :
  isRepositoryConnected (settings p) = false →
  enableEditMode branchName p =
    (Normal tt,
     mkPlugin (set_isReadOnlyMode false (settings p))
       (set_isReadOnlyMode false (settings p))
       (isGitOperationInProgress p)
       (notices p ++ ["✏️ Edit Mode enabled - You can now modify files"])
       (modals p) (calls p) (world p)).
Proof.
  intros Hc. open_plugin p.
  unfold enableEditMode, validateAndEnforceBranchRules. unfold_M. simpl.
  reflexivity.
Qed.

Lemma enableEditMode_not_connected_witness :
  let p := loaded DEFAULT_SETTINGS (desktop "main" no_faults) in
  enableEditMode (Some "main") p =
    (Normal tt,
     mkPlugin (set_isReadOnlyMode false DEFAULT_SETTINGS)
       (set_isReadOnlyMode false DEFAULT_SETTINGS) false
       ["✏️ Edit Mode enabled - You can now modify files"] [] []
       (desktop "main" no_faults)).
Proof.
  apply (enableEditMode_not_connected
           (loaded DEFAULT_SETTINGS (desktop "main" no_faults)) (Some "main")).
  reflexivity.
Defined.

(** ** The branch-rule validator never throws and only adds to the call log *)

Lemma validate_never_throws (p : Plugin) :
  ∃ b, (validateAndEnforceBranchRules p).1 = Normal b.
Proof.
  open_plugin p. unfold validateAndEnforceBranchRules. unfold_M. simpl.
  repeat (case_match; simpl in *; simplify_eq; eauto).
Qed.

Lemma validate_calls (p : Plugin) :
  ∃ later, calls (validateAndEnforceBranchRules p).2 = (calls p ++ later)%list.
Proof.
  open_plugin p. unfold validateAndEnforceBranchRules. unfold_M. simpl.
  repeat (case_match; simpl in *; simplify_eq);
    simpl; rewrite <- ?app_assoc;
    first [by eexists | exists []; by rewrite app_nil_r].
Qed.

(** ** Switching branches *)

(** C6, as the code has it.  With a repository connected and a vault on the
    file system, [switchToBranch name] is turned down before any checkout
    exactly when read-only mode is on and [name] is not the main branch, or
    read-only mode is off and [name] is the main branch.  It then returns
    [false], shows one notice, changes no setting and saves nothing.  In
    every other case the checkout of [name] is the next external call. *)
Theorem switchToBranch_guard (p : Plugin) (name : string) :
  isRepositoryConnected (settings p) = true →
  isFileSystemAdapter (world p) = true →
  let disallowed :=
    (isReadOnlyMode (settings p) = true ∧ name ≠ mainBranch (settings p))
    ∨ (isReadOnlyMode (settings p) = false ∧ name = mainBranch (settings p)) in
  let r := (switchToBranch name p).1 in
  let p' := (switchToBranch name p).2 in
  (disallowed →
     r = Normal false ∧ calls p' = calls p ∧ settings p' = settings p
     ∧ savedData p' = savedData p ∧ world p' = world p
     ∧ ∃ text, notices p' = (notices p ++ [text])%list)
  ∧ (¬ disallowed →
     ∃ later, calls p' = (calls p ++ GitCheckoutQuoted name :: later)%list).
Proof.
  intros Hc Hfs. open_plugin p. split.
  - intros [[-> Hne] | [-> ->]];
      unfold switchToBranch; unfold_M; simpl.
    + rewrite bool_decide_eq_true_2 by done. simpl. eauto 10.
    + rewrite bool_decide_eq_true_2 by done. simpl. eauto 10.
  - intros Hnot.
    assert (Hguard1 : isReadOnlyMode0 && bool_decide (name ≠ mainBranch0) = false).
    { destruct isReadOnlyMode0; [|done]. simpl.
      apply bool_decide_eq_false_2. intros Hne. apply Hnot. by left. }
    assert (Hguard2 : negb isReadOnlyMode0 && bool_decide (name = mainBranch0) = false).
    { destruct isReadOnlyMode0; [done|]. simpl.
      apply bool_decide_eq_false_2. intros He. apply Hnot. by right. }
    unfold switchToBranch. unfold_M. simpl. rewrite Hguard1, Hguard2. simpl.
    destruct (faults0 (length calls0)); simpl; [by eexists|].
    match goal with
    | |- context [validateAndEnforceBranchRules ?q] =>
        destruct (validate_calls q) as [later Hl];
        destruct (validateAndEnforceBranchRules q) as [[v|e] q']
    end; simpl in *; rewrite Hl, <- app_assoc; by eexists.
Qed.

Lemma switchToBranch_guard_witness :
  let p := loaded connected_settings (desktop "main" no_faults) in
  (switchToBranch "feature/x" p).1 = Normal false
  ∧ calls (switchToBranch "feature/x" p).2 = calls p
  ∧ settings (switchToBranch "feature/x" p).2 = settings p.
Proof.
  destruct (switchToBranch_guard
              (loaded connected_settings (desktop "main" no_faults)) "feature/x")
    as [Hrejected _]; [reflexivity | reflexivity |].
  destruct Hrejected as (Hr & Hcalls & Hsettings & _).
  - left. split; [reflexivity | discriminate].
  - exact (conj Hr (conj Hcalls Hsettings)).
Defined.

(** C6 as stated fails without a repository: read-only mode is on and the
    name is the main branch, which is neither of the two cases, and still
    [switchToBranch] returns [false] with a notice and without a checkout. *)
Lemma switchToBranch_not_connected :
  let p := loaded DEFAULT_SETTINGS (desktop "main" no_faults) in
  isReadOnlyMode (settings p) = true
  ∧ mainBranch (settings p) = "main"
  ∧ (switchToBranch "main" p).1 = Normal false
  ∧ calls (switchToBranch "main" p).2 = []
  ∧ notices (switchToBranch "main" p).2 = ["No repository connected"].
Proof. vm_compute. repeat split. Qed.

(** ** Validation *)

(** C7. With a repository connected and the branch that git reports equal
    to [mainBranch] while read-only mode is off, one run of the validator
    ends normally (it returns [false]), turns read-only mode on, saves the
    settings and shows the notice that the main branch cannot be edited. *)
Theorem validate_heals_edit_on_main (p : Plugin) :
  isRepositoryConnected (settings p) = true →
  isFileSystemAdapter (world p) = true →
  faults (world p) (length (calls p)) = false →
  Js.trim (gitHead (world p) +:+ LF) = mainBranch (settings p) →
  isReadOnlyMode (settings p) = false →
  let r := (validateAndEnforceBranchRules p).1 in
  let p' := (validateAndEnforceBranchRules p).2 in
  r = Normal false
  ∧ isReadOnlyMode (settings p') = true
  ∧ settings p' = set_isReadOnlyMode true (settings p)
  ∧ savedData p' = settings p'
  ∧ notices p' =
      (notices p ++ ["🚫 Cannot edit on " +:+ mainBranch (settings p) +:+
                     " branch. Switched to read-only mode."])%list.
Proof.
  intros Hc Hfs Hok Hhead Hro. open_plugin p.
  unfold validateAndEnforceBranchRules. unfold_M. simpl.
  rewrite Hok. simpl.
  case_bool_decide as Hm; simpl.
  - (* mainBranch is not "main", so the branch read is not "main" either *)
    rewrite (bool_decide_eq_false_2 (Js.trim _ = "main")) by congruence.
    simpl. rewrite bool_decide_eq_true_2 by done. done.
  - rewrite bool_decide_eq_true_2 by done. done.
Qed.

Lemma validate_heals_edit_on_main_witness :
  let p := loaded editing_settings (desktop "main" no_faults) in
  (validateAndEnforceBranchRules p).1 = Normal false
  ∧ isReadOnlyMode (settings (validateAndEnforceBranchRules p).2) = true.
Proof.
  destruct (validate_heals_edit_on_main
              (loaded editing_settings (desktop "main" no_faults)))
    as (Hr & Hro & _); try reflexivity.
  exact (conj Hr Hro).
Defined.

(** ** Entering read-only mode *)

Lemma checkForUncommittedChanges_never_throws (p : Plugin) :
  ∃ b, (checkForUncommittedChanges p).1 = Normal b.
Proof.
  open_plugin p. unfold checkForUncommittedChanges. unfold_M. simpl.
  repeat (case_match; simpl in *; simplify_eq; eauto).
Qed.

Lemma forceEnableReadOnlyMode_never_throws (p : Plugin) :
  (forceEnableReadOnlyMode p).1 = Normal tt.
Proof.
  open_plugin p. unfold forceEnableReadOnlyMode. unfold_M. simpl.
  repeat (case_match; simpl in *; simplify_eq; eauto).
  all: match goal with
       | H : validateAndEnforceBranchRules ?q = (Throw _, _) |- _ =>
           destruct (validate_never_throws q) as [b Hb]; rewrite H in Hb; done
       | _ => by destruct a
       end.
Qed.

Lemma validate_modals (p : Plugin) :
  modals (validateAndEnforceBranchRules p).2 = modals p.
Proof.
  open_plugin p. unfold validateAndEnforceBranchRules. unfold_M. simpl.
  repeat (case_match; simpl in *; simplify_eq); done.
Qed.

Lemma forceEnableReadOnlyMode_modals (p : Plugin) :
  modals (forceEnableReadOnlyMode p).2 = modals p.
Proof.
  open_plugin p. unfold forceEnableReadOnlyMode. unfold_M. simpl.
  repeat (case_match; simpl in *; simplify_eq); try done.
  all: match goal with
       | H : validateAndEnforceBranchRules ?q = (_, ?q') |- _ =>
           pose proof (validate_modals q) as Hm; rewrite H in Hm; exact Hm
       end.
Qed.

(** C9. [checkForUncommittedChanges] always ends normally.  It answers
    [false] without a repository, and [false] when the status query fails,
    which is also its answer on a clean working tree.  In edit mode with a
    repository, when the status query fails, [enableReadOnlyModeWithBranch]
    is [forceEnableReadOnlyMode] run right after the failed query, and no
    modal is opened. *)
Theorem status_failure_reads_as_clean (p : Plugin) :
  (∃ b, (checkForUncommittedChanges p).1 = Normal b)
  ∧ (isRepositoryConnected (settings p) = false →
     checkForUncommittedChanges p = (Normal false, p))
  ∧ (isRepositoryConnected (settings p) = true →
     isFileSystemAdapter (world p) = true →
     (faults (world p) (length (calls p)) = true →
        (checkForUncommittedChanges p).1 = Normal false
        ∧ calls (checkForUncommittedChanges p).2 = (calls p ++ [GitStatusPorcelain])%list
        ∧ (isReadOnlyMode (settings p) = false →
           enableReadOnlyModeWithBranch p
             = forceEnableReadOnlyMode (checkForUncommittedChanges p).2
           ∧ modals (enableReadOnlyModeWithBranch p).2 = modals p))
     ∧ (faults (world p) (length (calls p)) = false →
        Js.trim (statusOut (world p)) = EmptyString →
        (checkForUncommittedChanges p).1 = Normal false)).
Proof.
  split; [apply checkForUncommittedChanges_never_throws|].
  split.
  - intros Hc. open_plugin p. reflexivity.
  - intros Hc Hfs. split.
    + intros Hfail. open_plugin p.
      unfold checkForUncommittedChanges at 1 2. unfold_M. simpl.
      rewrite Hfail. simpl. split; [done|]. split; [done|].
      intros ->.
      unfold enableReadOnlyModeWithBranch, checkForUncommittedChanges.
      unfold_M. simpl. rewrite Hfail. simpl.
      match goal with
      | |- context [forceEnableReadOnlyMode ?q] =>
          pose proof (forceEnableReadOnlyMode_never_throws q) as Hn;
          pose proof (forceEnableReadOnlyMode_modals q) as Hm;
          destruct (forceEnableReadOnlyMode q) as [r q'] eqn:Hq
      end.
      simpl in Hn, Hm. subst r. split; done.
    + intros Hok Hclean. open_plugin p.
      unfold checkForUncommittedChanges. unfold_M. simpl.
      rewrite Hok. simpl. rewrite Hclean. done.
Qed.

Lemma status_failure_reads_as_clean_witness :
  let p := loaded editing_settings (desktop "feature/x" (fail_at 0)) in
  (checkForUncommittedChanges p).1 = Normal false
  ∧ modals (enableReadOnlyModeWithBranch p).2 = [].
Proof.
  destruct (status_failure_reads_as_clean
              (loaded editing_settings (desktop "feature/x" (fail_at 0))))
    as (_ & _ & Hconnected).
  destruct Hconnected as [Hfail _]; [reflexivity | reflexivity |].
  destruct Hfail as (Hr & _ & Hmode); [reflexivity|].
  destruct Hmode as [_ Hmodals]; [reflexivity|].
  exact (conj Hr Hmodals).
Defined.

(** What [forceEnableReadOnlyMode] does when the checkout of the main
    branch fails: read-only mode is off afterwards, whatever it was before;
    nothing else in the settings changes and nothing is saved. *)
Lemma forceEnableReadOnlyMode_failed_checkout (p : Plugin) :
  isRepositoryConnected (settings p) = true →
  isFileSystemAdapter (world p) = true →
  faults (world p) (length (calls p)) = true →
  forceEnableReadOnlyMode p =
    (Normal tt,
     mkPlugin (set_isReadOnlyMode false (settings p)) (savedData p)
       (isGitOperationInProgress p)
       (notices p ++ ["❌ Cannot enable read-only mode: Failed to switch to " +:+
                      mainBranch (settings p) +:+ " branch"])
       (modals p) (calls p ++ [GitCheckout (mainBranch (settings p))]) (world p)).
Proof.
  intros Hc Hfs Hfail. open_plugin p.
  unfold forceEnableReadOnlyMode. unfold_M. simpl. rewrite Hfail. reflexivity.
Qed.

(** C3, on the code.  The plugin is in read-only mode on main and the
    checkout of main fails: [forceEnableReadOnlyMode] leaves read-only mode
    off, not at the value it had before the call, with the current branch
    still the main branch. *)
Theorem forceEnableReadOnlyMode_no_rollback_from_read_only :
  let p := loaded connected_settings (desktop "main" (fail_at 0)) in
  let p' := (forceEnableReadOnlyMode p).2 in
  isReadOnlyMode (settings p) = true
  ∧ calls p' = [GitCheckout "main"]
  ∧ isReadOnlyMode (settings p') = false
  ∧ currentBranch (settings p') = mainBranch (settings p')
  ∧ gitHead (world p') = "main"
  ∧ notices p' = ["❌ Cannot enable read-only mode: Failed to switch to main branch"].
Proof. vm_compute. repeat split. Qed.

(** ** Pushing *)

Lemma length_snoc {A} (l : list A) (x : A) : length (l ++ [x]) = S (length l).
Proof. rewrite length_app. simpl. lia. Qed.

(** C4. With a repository connected, when the count that
    [git rev-list --count HEAD..origin/<branch>] prints is above zero,
    [pushChanges] pulls the current branch before it pushes.  When the pull
    succeeds the push is the next call.  When the pull fails there is no
    push: the call log ends with the pull, the result is [false], and the
    notice shown is the one that asks to resolve conflicts by hand. *)
Theorem pushChanges_pulls_when_behind (p : Plugin) :
  isRepositoryConnected (settings p) = true →
  isFileSystemAdapter (world p) = true →
  faults (world p) (S (length (calls p))) = false →
  Js.gt0 (Js.parseInt (Js.trim (behindOut (world p)))) = true →
  let n := length (calls p) in
  let b := currentBranch (settings p) in
  let r := (pushChanges p).1 in
  let p' := (pushChanges p).2 in
  (faults (world p) (S (S n)) = false →
     calls p' = (calls p ++ [GitFetchOrigin; GitRevListCount b; GitPullOrigin b;
                             GitPushOrigin b])%list)
  ∧ (faults (world p) (S (S n)) = true →
     r = Normal false
     ∧ calls p' = (calls p ++ [GitFetchOrigin; GitRevListCount b; GitPullOrigin b])%list
     ∧ notices p' =
         (notices p ++ ["❌ Cannot push: Local branch is behind remote and pull failed. Please resolve conflicts manually."])%list
     ∧ settings p' = settings p).
Proof.
  intros Hc Hfs Hcount Hbehind. open_plugin p.
  split; intros Hpull;
    unfold pushChanges; unfold_M; simpl;
    destruct (faults0 (length calls0)); simpl;
    rewrite ?length_snoc, ?Hcount; simpl;
    rewrite ?Hbehind; simpl;
    rewrite ?length_snoc, ?Hpull; simpl;
    rewrite <- ?app_assoc; simpl.
  all: try done.
  all: repeat (case_match; simpl in *; simplify_eq); rewrite <- ?app_assoc; done.
Qed.

Lemma pushChanges_pulls_when_behind_witness :
  let p := loaded editing_settings (behind "2" (desktop "feature/x" (fail_at 2))) in
  (pushChanges p).1 = Normal false
  ∧ calls (pushChanges p).2 =
      [GitFetchOrigin; GitRevListCount "feature/x"; GitPullOrigin "feature/x"].
Proof.
  destruct (pushChanges_pulls_when_behind
              (loaded editing_settings (behind "2" (desktop "feature/x" (fail_at 2)))))
    as [_ Hfailed]; try reflexivity.
  destruct Hfailed as (Hr & Hcalls & _); [reflexivity|].
  exact (conj Hr Hcalls).
Defined.

(** ** The git-operation flag *)

Lemma try_finally_releases {A} (m : M A) (p : Plugin) :
  isGitOperationInProgress (try_finally m (setGitOperationInProgress false) p).2 = false.
Proof.
  unfold try_finally, setGitOperationInProgress.
  by destruct (m p) as [[a|e] p'].
Qed.

Lemma setGitOperationInProgress_then {A} (v : bool) (k : M A) (p : Plugin) :
  (setGitOperationInProgress v >> k) p =
    k (mkPlugin (settings p) (savedData p) v (notices p) (modals p) (calls p) (world p)).
Proof. reflexivity. Qed.

Lemma cloneRepository_releases (url token : string) (p : Plugin) :
  isGitOperationInProgress (cloneRepository url token p).2 = false.
Proof.
  unfold cloneRepository. rewrite setGitOperationInProgress_then.
  apply try_finally_releases.
Qed.

Lemma pullLatestChanges_releases (p : Plugin) :
  isGitOperationInProgress p = false →
  isGitOperationInProgress (pullLatestChanges p).2 = false.
Proof.
  intros Hidle. open_plugin p. unfold pullLatestChanges. unfold_M. simpl.
  repeat (case_match; simpl in *; simplify_eq); done.
Qed.

Lemma pushChanges_releases (p : Plugin) :
  isGitOperationInProgress p = false →
  isGitOperationInProgress (pushChanges p).2 = false.
Proof.
  intros Hidle. open_plugin p. unfold pushChanges. unfold_M. simpl.
  repeat (case_match; simpl in *; simplify_eq); done.
Qed.

(** C8. Started with no git operation in progress, [pushChanges],
    [pullLatestChanges] and [cloneRepository] each end normally, whichever
    of their external calls fail, and with the flag
    [isGitOperationInProgress] off; [cloneRepository] ends with the flag off
    whatever it was at the start. *)
Theorem git_operation_flag_released (p : Plugin) (url token : string) :
  isGitOperationInProgress p = false →
  (isGitOperationInProgress (pushChanges p).2 = false
   ∧ ∃ r, (pushChanges p).1 = Normal r)
  ∧ (isGitOperationInProgress (pullLatestChanges p).2 = false
     ∧ ∃ r, (pullLatestChanges p).1 = Normal r)
  ∧ (isGitOperationInProgress (cloneRepository url token p).2 = false
     ∧ ∃ r, (cloneRepository url token p).1 = Normal r).
Proof.
  intros Hidle. repeat split.
  - by apply pushChanges_releases.
  - open_plugin p. unfold pushChanges. unfold_M. simpl.
    repeat (case_match; simpl in *; simplify_eq; eauto).
  - by apply pullLatestChanges_releases.
  - open_plugin p. unfold pullLatestChanges. unfold_M. simpl.
    repeat (case_match; simpl in *; simplify_eq; eauto).
  - apply cloneRepository_releases.
  - unfold cloneRepository. rewrite setGitOperationInProgress_then.
    unfold try_finally, try_catch at 1, setGitOperationInProgress.
    match goal with
    | |- context [match ?m ?q with _ => _ end] => destruct (m q) as [[r|e] q']
    end; simpl; eauto.
Qed.

Lemma git_operation_flag_released_witness :
  let p := loaded editing_settings (behind "2" (desktop "feature/x" (fail_at 2))) in
  isGitOperationInProgress (pushChanges p).2 = false
  ∧ isGitOperationInProgress (pullLatestChanges p).2 = false
  ∧ isGitOperationInProgress
      (cloneRepository "https://github.com/owner/repo.git" "ghp_token" p).2 = false.
Proof.
  destruct (git_operation_flag_released
              (loaded editing_settings (behind "2" (desktop "feature/x" (fail_at 2))))
              "https://github.com/owner/repo.git" "ghp_token")
    as ([Hpush _] & [Hpull _] & [Hclone _]); [reflexivity|].
  exact (conj Hpush (conj Hpull Hclone)).
Defined.

(** ** The coupling of mode and branch *)

(** *** [trim] on what [git branch --show-current] prints *)

Lemma string_app_cons (a : ascii) (s t : string) :
  String a s +:+ t = String a (s +:+ t).
Proof. reflexivity. Qed.

Lemma length_string_app (s t : string) :
  String.length (s +:+ t) = (String.length s + String.length t)%nat.
Proof.
  induction s as [|a s IH]; [reflexivity|].
  rewrite string_app_cons. simpl. by rewrite IH.
Qed.

Lemma length_substring_from (n : nat) (s : string) :
  String.length (Js.substring_from n s) = (String.length s - n)%nat.
Proof.
  revert s. induction n as [|n IH]; intros [|a s]; simpl; done.
Qed.

Lemma startsWith_length (c s : string) :
  Js.startsWith c s = true → (String.length c ≤ String.length s)%nat.
Proof.
  revert s. induction c as [|a c IH]; intros [|b s]; simpl; try done; [lia|].
  case_decide; [|done]. intros Hc%IH. lia.
Qed.

Lemma after_one_of_shorter (chars : list string) (s s' : string) :
  Forall (λ c, c ≠ EmptyString) chars →
  Js.after_one_of chars s = Some s' →
  (String.length s' < String.length s)%nat.
Proof.
  induction 1 as [|c chars Hc _ IH]; simpl; [done|].
  destruct (Js.startsWith c s) eqn:Hstart; [|exact IH].
  intros [= <-]. apply startsWith_length in Hstart.
  rewrite length_substring_from. destruct c; [done|]. simpl in *. lia.
Qed.

Lemma whiteSpace_not_empty : Forall (λ c, c ≠ EmptyString) Js.whiteSpace.
Proof. repeat constructor; discriminate. Qed.

Lemma trimStart_go_S (n : nat) (s : string) :
  Js.trimStart_go (S n) s =
    match Js.after_one_of Js.whiteSpace s with
    | Some s' => Js.trimStart_go n s'
    | None => s
    end.
Proof. reflexivity. Qed.

Lemma trimStart_go_shorter (n : nat) (s : string) :
  Js.trimStart_go n s = s
  ∨ (String.length (Js.trimStart_go n s) < String.length s)%nat.
Proof.
  revert s. induction n as [|n IH]; intros s; [by left|].
  rewrite trimStart_go_S.
  destruct (Js.after_one_of Js.whiteSpace s) as [s'|] eqn:Hs; [|by left].
  right. apply (after_one_of_shorter _ _ _ whiteSpace_not_empty) in Hs.
  destruct (IH s') as [Heq | ?]; [rewrite Heq|]; lia.
Qed.

Lemma length_trimStart (s : string) :
  (String.length (Js.trimStart s) ≤ String.length s)%nat.
Proof.
  unfold Js.trimStart.
  destruct (trimStart_go_shorter (String.length s) s) as [-> | ?]; lia.
Qed.

Lemma length_trimEnd (s : string) :
  (String.length (Js.trimEnd s) ≤ String.length s)%nat.
Proof.
  induction s as [|a s IH]; [done|].
  change (Js.trimEnd (String a s)) with
    (match Js.trimStart (String a s) with
     | EmptyString => EmptyString
     | _ => String a (Js.trimEnd s)
     end).
  destruct (Js.trimStart (String a s)); simpl; lia.
Qed.

(** No white space character holds a line feed after its first byte, so
    a line feed put after a string that is not empty does not change the
    character the string starts with. *)
Lemma whiteSpace_one_line : Forall one_line Js.whiteSpace.
Proof. repeat constructor. Qed.

Lemma startsWith_no_LF (c s : string) :
  no_LF c = true → Js.startsWith c (s +:+ LF) = Js.startsWith c s.
Proof.
  revert s. induction c as [|a c IH]; intros s; [done|]. simpl.
  intros [Ha Hc]%andb_true_iff. apply negb_true_iff, bool_decide_eq_false in Ha.
  destruct s as [|b s]; simpl.
  - by case_decide.
  - case_decide; [by apply IH | done].
Qed.

Lemma substring_from_app (n : nat) (s t : string) :
  (n ≤ String.length s)%nat →
  Js.substring_from n (s +:+ t) = Js.substring_from n s +:+ t.
Proof.
  revert s. induction n as [|n IH]; intros s Hn; [done|].
  destruct s as [|a s]; simpl in *; [lia|]. apply IH. lia.
Qed.

Lemma after_one_of_app_LF (chars : list string) (s : string) :
  Forall one_line chars → s ≠ EmptyString →
  Js.after_one_of chars (s +:+ LF) = (λ r, r +:+ LF) <$> Js.after_one_of chars s.
Proof.
  intros Hchars Hs. induction Hchars as [|c chars Hc _ IH]; [done|]. simpl.
  assert (Hsame : Js.startsWith c (s +:+ LF) = Js.startsWith c s).
  { destruct c as [|a c]; [done|]. destruct s as [|b s]; [done|].
    rewrite string_app_cons. simpl. case_decide; [|done].
    by apply startsWith_no_LF. }
  rewrite Hsame. destruct (Js.startsWith c s) eqn:Hstart; [|exact IH].
  simpl. by rewrite substring_from_app by by apply startsWith_length.
Qed.

Lemma trimStart_go_app_LF (n : nat) (s : string) :
  (String.length s ≤ n)%nat →
  Js.trimStart_go (S n) (s +:+ LF) =
    match Js.trimStart_go n s with
    | EmptyString => EmptyString
    | r => r +:+ LF
    end.
Proof.
  revert s. induction n as [|n IH]; intros s Hn.
  - destruct s; [reflexivity | simpl in Hn; lia].
  - destruct s as [|b s]; [reflexivity|].
    rewrite (trimStart_go_S (S n)), (trimStart_go_S n).
    rewrite (after_one_of_app_LF _ _ whiteSpace_one_line) by done.
    destruct (Js.after_one_of Js.whiteSpace (String b s)) as [r|] eqn:Hr; [|done].
    simpl. apply IH.
    apply (after_one_of_shorter _ _ _ whiteSpace_not_empty) in Hr. lia.
Qed.

Lemma trimStart_app_LF (s : string) :
  Js.trimStart (s +:+ LF) =
    match Js.trimStart s with
    | EmptyString => EmptyString
    | r => r +:+ LF
    end.
Proof.
  unfold Js.trimStart. rewrite length_string_app. simpl.
  rewrite Nat.add_1_r. by apply trimStart_go_app_LF.
Qed.

Lemma trimEnd_cons (a : ascii) (s : string) :
  Js.trimEnd (String a s) =
    match Js.trimStart (String a s) with
    | EmptyString => EmptyString
    | _ => String a (Js.trimEnd s)
    end.
Proof. reflexivity. Qed.

Lemma trimEnd_LF (s : string) : Js.trimEnd (s +:+ LF) = Js.trimEnd s.
Proof.
  induction s as [|a s IH]; [reflexivity|].
  rewrite string_app_cons, !trimEnd_cons, <- string_app_cons, trimStart_app_LF, IH.
  by destruct (Js.trimStart (String a s)).
Qed.

Lemma trim_LF (b : string) : trimmed b → Js.trim (b +:+ LF) = b.
Proof.
  unfold trimmed, Js.trim. intros Hb.
  assert (Hstart : Js.trimStart b = b).
  { pose proof (length_trimEnd (Js.trimStart b)) as H1. rewrite Hb in H1.
    unfold Js.trimStart in *.
    destruct (trimStart_go_shorter (String.length b) b) as [-> | ?]; [done | lia]. }
  rewrite Hstart in Hb. rewrite trimStart_app_LF, Hstart.
  destruct b as [|a b]; [reflexivity|].
  by rewrite trimEnd_LF.
Qed.

(** *** Each transition keeps the plugin consistent *)

Lemma validate_consistent (p : Plugin) :
  consistent p → consistent (validateAndEnforceBranchRules p).2.
Proof.
  unfold consistent, coupled. intros (Hc & [Hro Hedit] & Hmain & Hgit).
  open_plugin p. unfold validateAndEnforceBranchRules. unfold_M. simpl.
  destruct isFileSystemAdapter0; simpl; [|done].
  destruct Hgit as [-> Hcur]; [done|].
  destruct (faults0 (length calls0)); simpl; [done|].
  rewrite trim_LF by done.
  destruct isReadOnlyMode0;
    repeat (case_bool_decide; simpl in *; simplify_eq);
    try destruct (faults0 _); simpl;
    split_and!; naive_solver.
Qed.



(** Closes a goal [consistent q] for a plugin [q] written out in full. *)
Ltac consistent_now :=
  unfold consistent, coupled; simpl; intuition congruence.












(** Why the stored branch has to be the one git has checked out: after a
    checkout of main made outside the plugin, the validator turns read-only
    mode on and leaves the stored current branch on the working branch. *)
Remark validate_after_outside_checkout :
  let p := loaded editing_settings (desktop "main" no_faults) in
  let p' := perform ValidateAndEnforceBranchRules p in
  isReadOnlyMode (settings p') = true
  ∧ currentBranch (settings p') = "feature/x"
  ∧ mainBranch (settings p') = "main".
Proof. vm_compute. repeat split. Qed.

(** Why the name checked out has to be a branch: [git checkout HEAD]
    succeeds and stays on the main branch, so after [enableEditMode] on
    that name the validator turns read-only mode on again while the stored
    current branch is the name that was asked for. *)
Remark enableEditMode_on_no_branch :
  let p := loaded connected_settings (resolving "HEAD" "main" (desktop "main" no_faults)) in
  let p' := perform (EnableEditMode (Some "HEAD")) p in
  consistent p
  ∧ calls p' = [GitCheckout "HEAD"; GitBranchShowCurrent]
  ∧ gitHead (world p') = "main"
  ∧ isReadOnlyMode (settings p') = true
  ∧ currentBranch (settings p') = "HEAD"
  ∧ mainBranch (settings p') = "main".
Proof.
  split; [unfold consistent, coupled; simpl; repeat split; reflexivity|].
  vm_compute. repeat split.
Qed.

(** * Further properties *)

(** ** URL spellings *)

Lemma strip_git_suffix_app (s : string) : Js.strip_git_suffix (s +:+ ".git") = s.
Proof.
  induction s as [|a s IH]; [reflexivity|].
  change (String a s +:+ ".git") with (String a (s +:+ ".git")).
  simpl. case_decide as Heq.
  - exfalso. simplify_eq. apply (f_equal String.length) in H.
    rewrite length_string_app in H. simpl in H. lia.
  - by rewrite IH.
Qed.

Lemma strip_git_suffix_host (rest : string) :
  Js.strip_git_suffix ("github.com/" +:+ rest) = "github.com/" +:+ Js.strip_git_suffix rest.
Proof.
  change ("github.com/" +:+ rest) with
    (String "g" (String "i" (String "t" (String "h" (String "u" (String "b"
      (String "." (String "c" (String "o" (String "m" (String "/" rest))))))))))).
  unfold Js.strip_git_suffix at 1.
  repeat (case_decide; [discriminate|]); fold Js.strip_git_suffix.
  reflexivity.
Qed.

Lemma normalize_host_path (scheme rest : string) :
  Js.includes "github.com" (scheme +:+ "github.com/" +:+ rest) = true →
  Js.strip_scheme (scheme +:+ "github.com/" +:+ rest) = "github.com/" +:+ rest →
  normalizeRepositoryUrl (scheme +:+ "github.com/" +:+ rest)
    = "https://github.com/" +:+ Js.strip_git_suffix rest.
Proof.
  intros Hinc Hscheme. unfold normalizeRepositoryUrl.
  rewrite Hinc, Hscheme, strip_git_suffix_host. reflexivity.
Qed.

(** X1. The [https://], [http://] and scheme-less spellings of
    [github.com/<path>] all normalise to [https://github.com/<path>] with
    one trailing [.git] of the path removed; so with [.git] appended to any
    path, the six spellings of a repository share one normal form. *)
Theorem normalize_spellings (path : string) :
  let normal := "https://github.com/" +:+ Js.strip_git_suffix path in
  (normalizeRepositoryUrl ("https://github.com/" +:+ path) = normal
   ∧ normalizeRepositoryUrl ("http://github.com/" +:+ path) = normal
   ∧ normalizeRepositoryUrl ("github.com/" +:+ path) = normal)
  ∧ (normalizeRepositoryUrl ("https://github.com/" +:+ path +:+ ".git")
       = "https://github.com/" +:+ path
     ∧ normalizeRepositoryUrl ("http://github.com/" +:+ path +:+ ".git")
       = "https://github.com/" +:+ path
     ∧ normalizeRepositoryUrl ("github.com/" +:+ path +:+ ".git")
       = "https://github.com/" +:+ path).
Proof.
  assert (Hall : ∀ rest,
    normalizeRepositoryUrl ("https://github.com/" +:+ rest)
      = "https://github.com/" +:+ Js.strip_git_suffix rest
    ∧ normalizeRepositoryUrl ("http://github.com/" +:+ rest)
      = "https://github.com/" +:+ Js.strip_git_suffix rest
    ∧ normalizeRepositoryUrl ("github.com/" +:+ rest)
      = "https://github.com/" +:+ Js.strip_git_suffix rest).
  { intros rest. split_and!.
    - by apply (normalize_host_path "https://").
    - by apply (normalize_host_path "http://").
    - by apply (normalize_host_path EmptyString). }
  split; [apply Hall|].
  rewrite <- (strip_git_suffix_app path) at 2 4 6. apply Hall.
Qed.

(** ** The token store *)

(** X2. Removing a token under one spelling makes the lookup under every
    spelling with the same normal form come back empty; storing or removing
    a token under a URL with another normal form leaves the lookup as it
    was. *)
Theorem token_store_by_normal_form (u1 u2 token : string) (p : Plugin) :
  (normalizeRepositoryUrl u1 = normalizeRepositoryUrl u2 →
   (getRepositoryToken u2 (removeRepositoryToken u1 p).2).1 = Normal None)
  ∧ (normalizeRepositoryUrl u1 ≠ normalizeRepositoryUrl u2 →
     (getRepositoryToken u2 (setRepositoryToken u1 token p).2).1
       = (getRepositoryToken u2 p).1
     ∧ (getRepositoryToken u2 (removeRepositoryToken u1 p).2).1
       = (getRepositoryToken u2 p).1).
Proof.
  unfold getRepositoryToken, setRepositoryToken, removeRepositoryToken.
  unfold_M. simpl. split.
  - intros ->. by rewrite lookup_delete_eq.
  - intros Hne. by rewrite lookup_insert_ne, lookup_delete_ne.
Qed.

Lemma token_store_by_normal_form_witness :
  let p := (setRepositoryToken "http://github.com/owner/repo" "ghp_token"
              (loaded DEFAULT_SETTINGS (desktop "main" no_faults))).2 in
  (getRepositoryToken "github.com/owner/repo"
     (removeRepositoryToken "https://github.com/owner/repo.git" p).2).1
  = Normal None.
Proof.
  exact (proj1 (token_store_by_normal_form "https://github.com/owner/repo.git"
                  "github.com/owner/repo" EmptyString
                  (setRepositoryToken "http://github.com/owner/repo" "ghp_token"
                     (loaded DEFAULT_SETTINGS (desktop "main" no_faults))).2)
               eq_refl).
Defined.

(** *** Migration of the stored tokens *)

Lemma migrate_entries_fold (entries : list (string * string))
    (m : gmap string string) (h : bool) :
  (migrate_entries entries m h).1
    = foldl (λ acc e, <[normalizeRepositoryUrl e.1 := e.2]> acc) m entries.
Proof.
  revert m h. induction entries as [|[url token] rest IH]; intros m h; [done|].
  simpl. case_bool_decide as Hn; rewrite IH; [done|].
  by assert (normalizeRepositoryUrl url = url) as -> by (by destruct (decide (normalizeRepositoryUrl url = url))).
Qed.

Lemma migrate_entries_unchanged (entries : list (string * string))
    (m : gmap string string) :
  (migrate_entries entries m false).2 = false →
  ∀ url token, (url, token) ∈ entries → normalizeRepositoryUrl url = url.
Proof.
  revert m. induction entries as [|[u t] rest IH]; intros m Hno url token Hin.
  - by apply elem_of_nil in Hin.
  - simpl in Hno. case_bool_decide as Hn.
    + exfalso. clear -Hno.
      assert (Htrue : ∀ l m', (migrate_entries l m' true).2 = true).
      { induction l as [|[u' t'] l IHl]; intros m'; [done|].
        simpl. case_bool_decide; apply IHl. }
      by rewrite Htrue in Hno.
    + apply elem_of_cons in Hin as [Heq|Hin]; [|by eapply IH].
      simplify_eq. by destruct (decide (normalizeRepositoryUrl u = u)).
Qed.

Lemma migrate_entries_changed (entries : list (string * string))
    (m : gmap string string) (h : bool) :
  (∀ url token, (url, token) ∈ entries → normalizeRepositoryUrl url = url) →
  (migrate_entries entries m h).2 = h.
Proof.
  revert m. induction entries as [|[u t] rest IH]; intros m Hfix; [done|].
  simpl. rewrite bool_decide_eq_false_2.
  - apply IH. intros url token Hin. eapply Hfix. by right.
  - intros Hn. apply Hn. eapply Hfix. by left.
Qed.

Lemma fold_insert_keeps (entries : list (string * string))
    (m : gmap string string) (k t : string) :
  (∀ u' t', (u', t') ∈ entries → normalizeRepositoryUrl u' = k → t' = t) →
  m !! k = Some t →
  foldl (λ acc e, <[normalizeRepositoryUrl e.1 := e.2]> acc) m entries !! k = Some t.
Proof.
  revert m. induction entries as [|[u' t'] rest IH]; intros m Hsame Hm; [done|].
  simpl. apply IH.
  - intros u'' t'' Hin. apply Hsame. by right.
  - destruct (decide (normalizeRepositoryUrl u' = k)) as [Hk|Hk].
    + rewrite Hk, lookup_insert_eq. f_equal. eapply Hsame; [by left|done].
    + by rewrite lookup_insert_ne.
Qed.

Lemma fold_insert_finds (entries : list (string * string))
    (m : gmap string string) (k t : string) :
  (∀ u' t', (u', t') ∈ entries → normalizeRepositoryUrl u' = k → t' = t) →
  (∃ u, (u, t) ∈ entries ∧ normalizeRepositoryUrl u = k) →
  foldl (λ acc e, <[normalizeRepositoryUrl e.1 := e.2]> acc) m entries !! k = Some t.
Proof.
  revert m. induction entries as [|[u' t'] rest IH]; intros m Hsame (u & Hin & Hk).
  - by apply elem_of_nil in Hin.
  - simpl. apply elem_of_cons in Hin as [Heq|Hin].
    + simplify_eq. apply fold_insert_keeps.
      * intros u'' t'' Hin. apply Hsame. by right.
      * by rewrite lookup_insert_eq.
    + apply IH; [|by exists u].
      intros u'' t'' Hin'. apply Hsame. by right.
Qed.

(** X3. Migration keeps every token reachable: a token stored under a key
    that shares its normal form with no other stored key is what
    [getRepositoryToken] answers for that key afterwards, in whatever order
    the entries are visited.  A store whose keys are all in normal form is
    left as it is and nothing is saved. *)
Theorem migration_keeps_tokens (entries : list (string * string)) (p : Plugin) :
  entries ≡ₚ map_to_list (repositoryTokens (settings p)) →
  (∀ url token,
     repositoryTokens (settings p) !! url = Some token →
     (∀ url', is_Some (repositoryTokens (settings p) !! url') →
              normalizeRepositoryUrl url' = normalizeRepositoryUrl url → url' = url) →
     (getRepositoryToken url (migrateRepositoryTokens entries p).2).1
       = Normal (Some token))
  ∧ ((∀ url, is_Some (repositoryTokens (settings p) !! url) →
             normalizeRepositoryUrl url = url) →
     migrateRepositoryTokens entries p = (Normal tt, p)).
Proof.
  intros Hperm.
  assert (Hin : ∀ u t, (u, t) ∈ entries ↔ repositoryTokens (settings p) !! u = Some t).
  { intros u t. rewrite Hperm. apply elem_of_map_to_list. }
  split.
  - intros url token Hurl Hunique.
    unfold migrateRepositoryTokens, getRepositoryToken.
    pose proof (migrate_entries_fold entries ∅ false) as Hfold.
    pose proof (migrate_entries_unchanged entries ∅) as Hfixed.
    destruct (migrate_entries entries ∅ false) as [migrated [|]]; simpl in *.
    + unfold_M. simpl. rewrite Hfold. f_equal. apply fold_insert_finds.
      * intros u' t' Hu' Hn. apply Hin in Hu'.
        assert (u' = url) as -> by (apply Hunique; [by eexists|done]).
        congruence.
      * exists url. split; [by apply Hin|done].
    + unfold_M. simpl. f_equal.
      rewrite (Hfixed eq_refl url token); [done|by apply Hin].
  - intros Hfix. unfold migrateRepositoryTokens.
    pose proof (migrate_entries_changed entries ∅ false) as Hno.
    destruct (migrate_entries entries ∅ false) as [migrated changed]; simpl in *.
    rewrite Hno; [done|].
    intros url token Hu. apply Hfix. apply Hin in Hu. by eexists.
Qed.

Lemma migration_keeps_tokens_witness :
  let tokens : gmap string string := {[ "github.com/owner/repo" := "ghp_token" ]} in
  let p := loaded (set_repositoryTokens tokens DEFAULT_SETTINGS) (desktop "main" no_faults) in
  (getRepositoryToken "github.com/owner/repo"
     (migrateRepositoryTokens [("github.com/owner/repo", "ghp_token")] p).2).1
  = Normal (Some "ghp_token").
Proof.
  apply (migration_keeps_tokens [("github.com/owner/repo", "ghp_token")]
           (loaded (set_repositoryTokens {[ "github.com/owner/repo" := "ghp_token" ]}
                      DEFAULT_SETTINGS)
                   (desktop "main" no_faults))).
  - simpl. by rewrite map_to_list_singleton.
  - simpl. apply lookup_singleton_eq.
  - simpl. intros url' [t Ht] _.
    by apply lookup_singleton_Some in Ht as [<- _].
Defined.

(** ** Authenticated URLs *)

Lemma replace_absent (pat r s : string) :
  Js.includes pat s = false → Js.replace pat r s = s.
Proof.
  induction s as [|a s IH]; simpl.
  - by destruct (Js.startsWith pat EmptyString).
  - destruct (Js.startsWith pat (String a s)); [done|].
    intros Hs. by rewrite IH.
Qed.

Lemma startsWith_git_app (s : string) :
  s ≠ EmptyString →
  Js.startsWith ".git" s = false → Js.startsWith ".git" (s +:+ ".git") = false.
Proof.
  intros Hs.
  destruct s as [|a [|b [|c [|d s]]]]; [done|..];
    rewrite ?string_app_cons; change (EmptyString +:+ ".git") with ".git"; cbn;
    repeat (case_decide; simplify_eq; try done).
Qed.

Lemma includes_cons (pat : string) (a : ascii) (s : string) :
  Js.includes pat (String a s)
    = if Js.startsWith pat (String a s) then true else Js.includes pat s.
Proof. reflexivity. Qed.

Lemma replace_cons (pat r : string) (a : ascii) (s : string) :
  Js.replace pat r (String a s)
    = if Js.startsWith pat (String a s)
      then r +:+ Js.substring_from (String.length pat) (String a s)
      else String a (Js.replace pat r s).
Proof. reflexivity. Qed.

Lemma replace_git_suffix (path : string) :
  Js.includes ".git" path = false →
  Js.replace ".git" EmptyString (path +:+ ".git") = path.
Proof.
  induction path as [|a path IH]; [reflexivity|].
  rewrite includes_cons.
  destruct (Js.startsWith ".git" (String a path)) eqn:Hstart; [done|].
  intros Hinc.
  pose proof (startsWith_git_app (String a path) ltac:(done) Hstart) as Happ.
  rewrite string_app_cons in *.
  rewrite replace_cons, Happ. by rewrite IH.
Qed.

(** X4. [getAuthenticatedUrl] gives a URL that is not on github.com back
    as it is, whatever the token.  For [https://github.com/<path>], with or
    without a trailing [.git], where [.git] occurs nowhere in [<path>], it
    answers [https://<token>@github.com/<path>.git], and without a token
    [https://github.com/<path>.git]. *)
Theorem getAuthenticatedUrl_canonical (path token : string) :
  Js.includes ".git" path = false →
  let with_token :=
    if bool_decide (token = EmptyString)
    then "https://github.com/" +:+ path +:+ ".git"
    else "https://" +:+ token +:+ "@github.com/" +:+ path +:+ ".git" in
  getAuthenticatedUrl ("https://github.com/" +:+ path) token = with_token
  ∧ getAuthenticatedUrl ("https://github.com/" +:+ path +:+ ".git") token = with_token
  ∧ ∀ url, Js.includes "github.com" url = false → getAuthenticatedUrl url token = url.
Proof.
  intros Hpath. split_and!.
  - unfold getAuthenticatedUrl.
    change (Js.includes "github.com" ("https://github.com/" +:+ path)) with true.
    change (Js.replace "https://github.com/" EmptyString ("https://github.com/" +:+ path))
      with path.
    cbv iota. by rewrite replace_absent.
  - unfold getAuthenticatedUrl.
    change (Js.includes "github.com" ("https://github.com/" +:+ path +:+ ".git")) with true.
    change (Js.replace "https://github.com/" EmptyString
              ("https://github.com/" +:+ path +:+ ".git"))
      with (path +:+ ".git").
    cbv iota. by rewrite replace_git_suffix.
  - intros url Hurl. unfold getAuthenticatedUrl. by rewrite Hurl.
Qed.

Lemma getAuthenticatedUrl_canonical_witness :
  getAuthenticatedUrl "https://github.com/owner/repo.git" "ghp_token"
  = "https://ghp_token@github.com/owner/repo.git".
Proof.
  apply (getAuthenticatedUrl_canonical "owner/repo" "ghp_token"). reflexivity.
Defined.

(** ** Branch lists *)

Lemma elem_of_dedupe_go (seen l : list string) (x : string) :
  x ∈ Js.dedupe_go seen l ↔ x ∈ l ∧ x ∉ seen.
Proof.
  revert seen. induction l as [|y l IH]; intros seen; simpl.
  - split; [by intros ?%elem_of_nil | by intros [?%elem_of_nil _]].
  - case_decide as Hy.
    + rewrite IH, elem_of_cons. split; [tauto|].
      intros [[->|Hx] Hn]; [done|tauto].
    + rewrite !elem_of_cons, IH, elem_of_cons. split.
      * intros [->|[Hx Hn]]; split; auto.
      * intros [[->|Hx] Hn]; [by left|].
        destruct (decide (x = y)) as [->|Hxy]; [by left|].
        right. split; [done|]. by intros [?|?].
Qed.

Lemma NoDup_dedupe_go (seen l : list string) : NoDup (Js.dedupe_go seen l).
Proof.
  revert seen. induction l as [|y l IH]; intros seen; simpl.
  - constructor.
  - case_decide as Hy; [apply IH|].
    constructor; [|apply IH].
    intros [_ Hseen]%elem_of_dedupe_go. apply Hseen. by left.
Qed.

(** X5. The branch lists the plugin reads off git's output name no branch
    twice and never name [master]; the list [refreshAvailableBranches]
    builds holds no empty name either, and names exactly the trimmed lines
    of the output, without their first star, that are neither empty nor
    [master]. *)
Theorem branch_lists_clean (output : string) :
  (NoDup (branches_of output) ∧ ("master" ∉ branches_of output))
  ∧ (NoDup (local_branches_of output)
     ∧ ("master" ∉ local_branches_of output)
     ∧ (EmptyString ∉ local_branches_of output)
     ∧ ∀ b, b ∈ local_branches_of output ↔
            b ≠ EmptyString ∧ b ≠ "master"
            ∧ ∃ line, line ∈ Js.split_lines output
                      ∧ b = Js.trim (Js.replace "*" EmptyString line)).
Proof.
  unfold branches_of, local_branches_of, Js.dedupe. split_and!.
  - apply NoDup_dedupe_go.
  - rewrite elem_of_dedupe_go, list_elem_of_filter. by intros [[Hm _] _].
  - apply NoDup_dedupe_go.
  - rewrite elem_of_dedupe_go, list_elem_of_filter. by intros [[[_ Hm] _] _].
  - rewrite elem_of_dedupe_go, list_elem_of_filter. by intros [[[Hb _] _] _].
  - intros b. rewrite elem_of_dedupe_go, list_elem_of_filter, list_elem_of_fmap.
    split.
    + intros [[[Hb Hm] (line & -> & Hline)] _]. eauto.
    + intros (Hb & Hm & line & Hline & ->). split; [|apply not_elem_of_nil].
      split; [done|]. eauto.
Qed.

(** ** Disconnecting *)

(** X6. The [Disconnect] button marks the repository as not connected,
    clears its URL, saves, and makes no external call.  The token of the
    disconnected repository is gone under every spelling of its URL, the
    tokens of other repositories stay, and the mode and the branch
    settings are kept as they were. *)
Theorem disconnect_forgets_token (p : Plugin) :
  let old := repositoryUrl (settings p) in
  let p' := (disconnectRepository p).2 in
  (isRepositoryConnected (settings p') = false
   ∧ repositoryUrl (settings p') = EmptyString
   ∧ savedData p' = settings p'
   ∧ calls p' = calls p)
  ∧ (isReadOnlyMode (settings p') = isReadOnlyMode (settings p)
     ∧ currentBranch (settings p') = currentBranch (settings p)
     ∧ mainBranch (settings p') = mainBranch (settings p)
     ∧ availableBranches (settings p') = availableBranches (settings p))
  ∧ (old ≠ EmptyString →
     ∀ url, normalizeRepositoryUrl url = normalizeRepositoryUrl old →
            (getRepositoryToken url p').1 = Normal None)
  ∧ (∀ url, normalizeRepositoryUrl url ≠ normalizeRepositoryUrl old →
            (getRepositoryToken url p').1 = (getRepositoryToken url p).1).
Proof.
  open_plugin p.
  unfold disconnectRepository, removeRepositoryToken, getRepositoryToken.
  unfold_M. simpl. split_and!; try (by case_bool_decide).
  - intros Hold url ->. rewrite bool_decide_eq_true_2 by done. simpl.
    by rewrite lookup_delete_eq.
  - intros url Hne. case_bool_decide; simpl; [|done].
    by rewrite lookup_delete_ne.
Qed.

Lemma disconnect_forgets_token_witness :
  let p := (setRepositoryToken "https://github.com/owner/repo.git" "ghp_token"
              (loaded connected_settings (desktop "main" no_faults))).2 in
  (getRepositoryToken "github.com/owner/repo" (disconnectRepository p).2).1
  = Normal None.
Proof.
  destruct (disconnect_forgets_token
              (setRepositoryToken "https://github.com/owner/repo.git" "ghp_token"
                 (loaded connected_settings (desktop "main" no_faults))).2)
    as (_ & _ & Hgone & _).
  apply Hgone; [discriminate | reflexivity].
Defined.

(** ** The validator as a repair *)

Lemma validate_heals_stale_branch (p : Plugin) :
  isRepositoryConnected (settings p) = true →
  isFileSystemAdapter (world p) = true →
  faults (world p) (length (calls p)) = false →
  isReadOnlyMode (settings p) = true →
  gitHead (world p) = mainBranch (settings p) →
  trimmed (mainBranch (settings p)) →
  consistent (validateAndEnforceBranchRules p).2.
Proof.
  intros Hc Hfs Hok Hro Hhead Hmain. open_plugin p.
  unfold validateAndEnforceBranchRules. unfold_M. simpl.
  rewrite Hok. simpl. rewrite trim_LF by done.
  repeat (case_bool_decide; simpl in *; simplify_eq); consistent_now.
Qed.

Lemma validate_once (p : Plugin) :
  isRepositoryConnected (settings p) = true →
  isFileSystemAdapter (world p) = true →
  (∀ n, faults (world p) n = false) →
  lands_on (world p) (mainBranch (settings p)) →
  trimmed (gitHead (world p)) →
  trimmed (mainBranch (settings p)) →
  let q := (validateAndEnforceBranchRules p).2 in
  (∀ n, faults (world q) n = false)
  ∧ (consistent q
     ∨ (isRepositoryConnected (settings q) = true
        ∧ isFileSystemAdapter (world q) = true
        ∧ isReadOnlyMode (settings q) = true
        ∧ gitHead (world q) = mainBranch (settings q)
        ∧ trimmed (mainBranch (settings q)))).
Proof.
  intros Hc Hfs Hok Hland Hhead Hmain. unfold lands_on in Hland. open_plugin p.
  unfold validateAndEnforceBranchRules. unfold_M. simpl.
  rewrite !Hok. simpl. rewrite trim_LF by done.
  destruct isReadOnlyMode0;
    repeat (case_bool_decide; simpl in *; simplify_eq);
    rewrite ?Hok; simpl; rewrite ?Hland;
    (split; [done|]);
    first [ left; consistent_now | right; by split_and! ].
Qed.

(** X7. With a repository connected, no call failing and the main branch
    a branch of the repository, two runs of the validator in a row always
    end with mode and branch coupled and the stored current branch the one
    git has checked out, whatever mode and branches were stored before. *)
Theorem validate_twice_consistent (p : Plugin) :
  isRepositoryConnected (settings p) = true →
  isFileSystemAdapter (world p) = true →
  (∀ n, faults (world p) n = false) →
  lands_on (world p) (mainBranch (settings p)) →
  trimmed (gitHead (world p)) →
  trimmed (mainBranch (settings p)) →
  consistent
    (validateAndEnforceBranchRules (validateAndEnforceBranchRules p).2).2.
Proof.
  intros Hc Hfs Hok Hland Hhead Hmain.
  destruct (validate_once p Hc Hfs Hok Hland Hhead Hmain)
    as [Hok' [Hq | (Hc' & Hfs' & Hro & Hh & Hm)]].
  - by apply validate_consistent.
  - by apply validate_heals_stale_branch.
Qed.

Lemma validate_twice_consistent_witness :
  consistent
    (validateAndEnforceBranchRules
       (validateAndEnforceBranchRules
          (loaded editing_settings (desktop "main" no_faults))).2).2.
Proof.
  exact (validate_twice_consistent
           (loaded editing_settings (desktop "main" no_faults))
           eq_refl eq_refl (λ _, eq_refl) (λ _, eq_refl) eq_refl eq_refl).
Defined.

(** ** Entering edit mode on a working branch *)




(** X9. When the checkout of the working branch fails, [enableEditMode]
    gives up: it shows the failure with the message of the error thrown,
    and changes no setting, saves nothing and opens no modal. *)
Theorem enableEditMode_checkout_fails (p : Plugin) (b : string) :
  isRepositoryConnected (settings p) = true →
  isFileSystemAdapter (world p) = true →
  faults (world p) (length (calls p)) = true →
  b ≠ EmptyString → b ≠ mainBranch (settings p) →
  enableEditMode (Some b) p =
    (Normal tt,
     mkPlugin (settings p) (savedData p) (isGitOperationInProgress p)
       (notices p ++ ["Failed to switch to branch " +:+ b +:+ ": " +:+
                      errorMessage (world p) (length (calls p))])
       (modals p) (calls p ++ [GitCheckout b]) (world p)).
Proof.
  intros Hc Hfs Hfail Hb Hmain. open_plugin p.
  unfold enableEditMode. unfold_M. simpl.
  destruct b as [|a b]; [done|]. simpl.
  rewrite bool_decide_eq_false_2 by done. simpl.
  by rewrite Hfail.
Qed.

Lemma enableEditMode_checkout_fails_witness :
  let stderr := "error: pathspec 'feature/x' did not match any file(s) known to git" +:+ LF in
  let p := loaded connected_settings
             (reporting (exec_failure (GitCheckout "feature/x") stderr)
                (desktop "main" (fail_at 0))) in
  enableEditMode (Some "feature/x") p =
    (Normal tt,
     mkPlugin (settings p) (savedData p) (isGitOperationInProgress p)
       (notices p ++ ["Failed to switch to branch feature/x: Command failed: git checkout feature/x" +:+
                      LF +:+ stderr])
       (modals p) (calls p ++ [GitCheckout "feature/x"]) (world p)).
Proof.
  exact (enableEditMode_checkout_fails
           (loaded connected_settings
              (reporting
                 (exec_failure (GitCheckout "feature/x")
                    ("error: pathspec 'feature/x' did not match any file(s) known to git" +:+ LF))
                 (desktop "main" (fail_at 0))))
           "feature/x"
           eq_refl eq_refl eq_refl ltac:(discriminate) ltac:(discriminate)).
Defined.



(** ** Returning to read-only mode *)

(** What [forceEnableReadOnlyMode] does when its two calls succeed. *)
Lemma forceEnableReadOnlyMode_checked_out (p : Plugin) :
  isRepositoryConnected (settings p) = true →
  isFileSystemAdapter (world p) = true →
  (∀ n, faults (world p) n = false) →
  lands_on (world p) (mainBranch (settings p)) →
  trimmed (mainBranch (settings p)) →
  let main := mainBranch (settings p) in
  let s' := set_currentBranch main (set_isReadOnlyMode true (settings p)) in
  forceEnableReadOnlyMode p =
    (Normal tt,
     mkPlugin s' s' (isGitOperationInProgress p)
       (notices p ++ ["🔒 Read-Only Mode enabled - Switched to " +:+ main +:+ " branch"])
       (modals p) (calls p ++ [GitCheckout main; GitBranchShowCurrent])
       (set_gitHead main (world p))).
Proof.
  intros Hc Hfs Hok Hland Hmain. unfold lands_on in Hland. open_plugin p.
  unfold forceEnableReadOnlyMode, validateAndEnforceBranchRules. unfold_M. simpl.
  repeat (rewrite ?Hland, Hok; simpl). rewrite ?Hland, trim_LF by done.
  repeat (case_bool_decide; simpl; try congruence);
    rewrite <- ?app_assoc; done.
Qed.

(** X11. With a repository connected, no call failing and the main branch
    a branch of the repository, [forceEnableReadOnlyMode] ends in read-only
    mode on the main branch, from whatever mode and branch: git has the
    main branch checked out, the stored current branch is the main branch,
    the settings are saved, and nothing but the mode and the current
    branch has changed in them. *)
Theorem forceEnableReadOnlyMode_returns_to_main (p : Plugin) :
  isRepositoryConnected (settings p) = true →
  isFileSystemAdapter (world p) = true →
  (∀ n, faults (world p) n = false) →
  lands_on (world p) (mainBranch (settings p)) →
  trimmed (mainBranch (settings p)) →
  let main := mainBranch (settings p) in
  let p' := (forceEnableReadOnlyMode p).2 in
  isReadOnlyMode (settings p') = true
  ∧ currentBranch (settings p') = main
  ∧ gitHead (world p') = main
  ∧ settings p' = set_currentBranch main (set_isReadOnlyMode true (settings p))
  ∧ savedData p' = settings p'
  ∧ calls p' = (calls p ++ [GitCheckout main; GitBranchShowCurrent])%list.
Proof.
  intros Hc Hfs Hok Hland Hmain.
  cbv zeta. by rewrite forceEnableReadOnlyMode_checked_out.
Qed.

Lemma forceEnableReadOnlyMode_returns_to_main_witness :
  let p := loaded editing_settings (desktop "feature/x" no_faults) in
  let main := mainBranch (settings p) in
  let p' := (forceEnableReadOnlyMode p).2 in
  isReadOnlyMode (settings p') = true
  ∧ currentBranch (settings p') = main
  ∧ gitHead (world p') = main
  ∧ settings p' = set_currentBranch main (set_isReadOnlyMode true (settings p))
  ∧ savedData p' = settings p'
  ∧ calls p' = (calls p ++ [GitCheckout main; GitBranchShowCurrent])%list.
Proof.
  exact (forceEnableReadOnlyMode_returns_to_main
           (loaded editing_settings (desktop "feature/x" no_faults))
           eq_refl eq_refl (λ _, eq_refl) (λ _, eq_refl) eq_refl).
Defined.



(** X21. In edit mode with uncommitted changes,
    [enableReadOnlyModeWithBranch] only opens the save dialog: the status
    query is its one call, there is no checkout, and no setting changes.
    Already in read-only mode it asks git nothing about changes and goes
    straight to the checkout of the main branch. *)
Theorem enableReadOnlyModeWithBranch_asks_to_save (p : Plugin) :
  isRepositoryConnected (settings p) = true →
  isFileSystemAdapter (world p) = true →
  (isReadOnlyMode (settings p) = false →
   faults (world p) (length (calls p)) = false →
   Js.trim (statusOut (world p)) ≠ EmptyString →
   enableReadOnlyModeWithBranch p =
     (Normal tt,
      mkPlugin (settings p) (savedData p) (isGitOperationInProgress p) (notices p)
        (modals p ++ [SaveChangesModal]) (calls p ++ [GitStatusPorcelain]) (world p)))
  ∧ (isReadOnlyMode (settings p) = true →
     enableReadOnlyModeWithBranch p = forceEnableReadOnlyMode p
     ∧ ∃ later, calls (enableReadOnlyModeWithBranch p).2
                = (calls p ++ GitCheckout (mainBranch (settings p)) :: later)%list).
Proof.
  intros Hc Hfs. split.
  - intros Hro Hok Hdirty. open_plugin p.
    unfold enableReadOnlyModeWithBranch, checkForUncommittedChanges. unfold_M. simpl.
    rewrite Hok. simpl.
    destruct (Js.trim statusOut0) as [|a status]; [done|]. reflexivity.
  - intros Hro.
    assert (Hsame : enableReadOnlyModeWithBranch p = forceEnableReadOnlyMode p).
    { unfold enableReadOnlyModeWithBranch, try_catch at 1, bind at 1, getSettings.
      rewrite Hc, Hro. simpl. unfold bind, ret.
      pose proof (forceEnableReadOnlyMode_never_throws p) as Hn.
      destruct (forceEnableReadOnlyMode p) as [r q]. simpl in Hn. by subst r. }
    split; [done|]. rewrite Hsame. clear Hsame. open_plugin p.
    unfold forceEnableReadOnlyMode. unfold_M. simpl.
    destruct (faults0 (length calls0)); simpl; [by eexists|].
    match goal with
    | |- context [validateAndEnforceBranchRules ?q] =>
        destruct (validate_calls q) as [later Hl];
        destruct (validateAndEnforceBranchRules q) as [[v|e] q']
    end; simpl in *; rewrite Hl, <- app_assoc; by eexists.
Qed.

Lemma enableReadOnlyModeWithBranch_asks_to_save_witness :
  let p := loaded editing_settings
             (dirty " M notes.md" (desktop "feature/x" no_faults)) in
  let q := loaded connected_settings (desktop "main" no_faults) in
  enableReadOnlyModeWithBranch p =
    (Normal tt,
     mkPlugin (settings p) (savedData p) (isGitOperationInProgress p) (notices p)
       (modals p ++ [SaveChangesModal]) (calls p ++ [GitStatusPorcelain]) (world p))
  ∧ enableReadOnlyModeWithBranch q = forceEnableReadOnlyMode q.
Proof.
  exact (conj
    (proj1 (enableReadOnlyModeWithBranch_asks_to_save
              (loaded editing_settings
                 (dirty " M notes.md" (desktop "feature/x" no_faults)))
              eq_refl eq_refl)
           eq_refl eq_refl ltac:(discriminate))
    (proj1 (proj2 (enableReadOnlyModeWithBranch_asks_to_save
                     (loaded connected_settings (desktop "main" no_faults))
                     eq_refl eq_refl) eq_refl))).
Defined.



(** ** Pulling and pushing *)

(** X12. [pullLatestChanges] never changes a setting, saves nothing and
    opens no modal, connected or not; and once its checkout of the main
    branch has succeeded, the main branch being a branch of the
    repository, git is on the main branch, whether or not the pull that
    follows succeeds.  Run in edit mode, it therefore leaves git on main
    under settings that still name the working branch. *)
Theorem pullLatestChanges_moves_git_only (p : Plugin) :
  let p' := (pullLatestChanges p).2 in
  (settings p' = settings p ∧ savedData p' = savedData p ∧ modals p' = modals p)
  ∧ (isFileSystemAdapter (world p) = true →
     faults (world p) (length (calls p)) = false →
     lands_on (world p) (mainBranch (settings p)) →
     gitHead (world p') = mainBranch (settings p)
     ∧ ∃ later, calls p' = (calls p ++ GitCheckout (mainBranch (settings p)) :: later)%list).
Proof.
  unfold lands_on. open_plugin p. unfold pullLatestChanges. unfold_M. simpl. split.
  - destruct isFileSystemAdapter0; simpl; [|done].
    destruct (faults0 (length calls0)); simpl; [done|].
    destruct (faults0 (length (calls0 ++ [GitCheckout mainBranch0]))); done.
  - intros -> Hok Hland. simpl. rewrite Hok. simpl.
    destruct (faults0 (length (calls0 ++ [GitCheckout mainBranch0])));
      simpl; rewrite <- app_assoc, Hland; simpl;
      (split; [done | by eexists]).
Qed.

Lemma pullLatestChanges_moves_git_only_witness :
  let p := loaded editing_settings (desktop "feature/x" no_faults) in
  gitHead (world (pullLatestChanges p).2) = "main"
  ∧ currentBranch (settings (pullLatestChanges p).2) = "feature/x"
  ∧ isReadOnlyMode (settings (pullLatestChanges p).2) = false.
Proof.
  pose proof (pullLatestChanges_moves_git_only
                (loaded editing_settings (desktop "feature/x" no_faults)))
    as [(Hs & _) Hgit].
  destruct (Hgit eq_refl eq_refl (λ _, eq_refl)) as [Hhead _].
  split; [exact Hhead|]. by rewrite Hs.
Defined.

(** X13. The sync that follows a merge, started in edit mode with
    uncommitted changes: the save dialog is opened and the mode is left as
    it is, yet [pullLatestChanges] still runs and, when its checkout
    succeeds, the main branch being a branch of the repository, git is on
    the main branch while the settings stay in edit mode on the working
    branch. *)
Theorem postMergeSync_with_changes (p : Plugin) :
  isRepositoryConnected (settings p) = true →
  isFileSystemAdapter (world p) = true →
  isReadOnlyMode (settings p) = false →
  faults (world p) (length (calls p)) = false →
  Js.trim (statusOut (world p)) ≠ EmptyString →
  faults (world p) (S (length (calls p))) = false →
  lands_on (world p) (mainBranch (settings p)) →
  let main := mainBranch (settings p) in
  let p' := (postMergeSync p).2 in
  modals p' = (modals p ++ [SaveChangesModal])%list
  ∧ settings p' = settings p
  ∧ gitHead (world p') = main
  ∧ calls p' =
      (calls p ++ [GitStatusPorcelain; GitCheckout main; GitPullOrigin main])%list
  ∧ isGitOperationInProgress p' = false.
Proof.
  intros Hc Hfs Hro Hstatus Hdirty Hcheckout Hland. unfold lands_on in Hland.
  open_plugin p.
  unfold postMergeSync, enableReadOnlyModeWithBranch, checkForUncommittedChanges,
    pullLatestChanges.
  unfold_M. simpl. rewrite Hstatus. simpl.
  destruct (Js.trim statusOut0) as [|a status]; [done|]. simpl.
  rewrite length_snoc, Hcheckout. simpl.
  rewrite !length_snoc, Hland.
  destruct (faults0 (S (S (length calls0)))); simpl; rewrite <- !app_assoc; done.
Qed.

Lemma postMergeSync_with_changes_witness :
  let p := loaded editing_settings
             (dirty " M notes.md" (desktop "feature/x" no_faults)) in
  let main := mainBranch (settings p) in
  let p' := (postMergeSync p).2 in
  modals p' = (modals p ++ [SaveChangesModal])%list
  ∧ settings p' = settings p
  ∧ gitHead (world p') = main
  ∧ calls p' =
      (calls p ++ [GitStatusPorcelain; GitCheckout main; GitPullOrigin main])%list
  ∧ isGitOperationInProgress p' = false.
Proof.
  exact (postMergeSync_with_changes
           (loaded editing_settings
              (dirty " M notes.md" (desktop "feature/x" no_faults)))
           eq_refl eq_refl eq_refl eq_refl ltac:(discriminate) eq_refl
           (λ _, eq_refl)).
Defined.

(** X14. [pushChanges] never changes a setting and saves nothing.  A
    failing fetch does not stop it, and when the count of commits behind
    cannot be read the push is still the next call: the result is then
    [true] exactly when the push succeeds, and no notice is shown even
    when it fails. *)
Theorem pushChanges_without_count (p : Plugin) :
  let n := length (calls p) in
  let b := currentBranch (settings p) in
  let r := (pushChanges p).1 in
  let p' := (pushChanges p).2 in
  (settings p' = settings p ∧ savedData p' = savedData p)
  ∧ (isRepositoryConnected (settings p) = true →
     isFileSystemAdapter (world p) = true →
     faults (world p) (S n) = true →
     r = Normal (negb (faults (world p) (S (S n))))
     ∧ calls p' = (calls p ++ [GitFetchOrigin; GitRevListCount b; GitPushOrigin b])%list
     ∧ notices p' = notices p
     ∧ isGitOperationInProgress p' = isGitOperationInProgress p).
Proof.
  open_plugin p. split.
  - unfold pushChanges. unfold_M. simpl.
    repeat (case_match; simpl in *; simplify_eq); done.
  - intros -> -> Hcount. simpl in Hcount.
    unfold pushChanges. unfold_M. simpl.
    destruct (faults0 (length calls0)); simpl;
      rewrite length_snoc, Hcount; simpl;
      rewrite !length_snoc;
      destruct (faults0 (S (S (length calls0)))); simpl;
      rewrite <- !app_assoc; done.
Qed.

Lemma pushChanges_without_count_witness :
  let p := loaded editing_settings (desktop "feature/x" (fail_at 1)) in
  (pushChanges p).1 = Normal true
  ∧ calls (pushChanges p).2 =
      [GitFetchOrigin; GitRevListCount "feature/x"; GitPushOrigin "feature/x"].
Proof.
  destruct (pushChanges_without_count
              (loaded editing_settings (desktop "feature/x" (fail_at 1))))
    as [_ Hpush].
  destruct (Hpush eq_refl eq_refl eq_refl) as (Hr & Hcalls & _).
  exact (conj Hr Hcalls).
Defined.

(** ** The .gitignore of the vault *)

Lemma includes_app_r (pat s t : string) :
  Js.includes pat t = true → Js.includes pat (s +:+ t) = true.
Proof.
  intros Ht. induction s as [|a s IH]; [done|].
  rewrite string_app_cons, includes_cons.
  by destruct (Js.startsWith pat (String a (s +:+ t))).
Qed.

(** X15. [ensureGitignoreExists] always ends normally and changes no
    setting.  When none of its calls fails, the vault afterwards has a
    [.gitignore] that mentions [.obsidian], whether there was none, one
    without the entry, or one with it; and a [.gitignore] that already
    mentions [.obsidian] is read but not written again. *)
Theorem ensureGitignoreExists_excludes_obsidian (p : Plugin) (vaultPath : string) :
  let p' := (ensureGitignoreExists vaultPath p).2 in
  ((ensureGitignoreExists vaultPath p).1 = Normal tt
   ∧ settings p' = settings p ∧ savedData p' = savedData p)
  ∧ ((∀ n, faults (world p) n = false) →
     ∃ content, gitignore (world p') = Some content
                ∧ Js.includes ".obsidian" content = true)
  ∧ (∀ content,
       gitignore (world p) = Some content →
       Js.includes ".obsidian" content = true →
       faults (world p) (length (calls p)) = false →
       faults (world p) (S (length (calls p))) = false →
       world p' = world p ∧ notices p' = notices p
       ∧ calls p' = (calls p ++ [FsAccess (vaultPath +:+ "/.gitignore");
                                 FsReadFile (vaultPath +:+ "/.gitignore")])%list).
Proof.
  open_plugin p. unfold ensureGitignoreExists, readFile. unfold_M. simpl.
  split_and!.
  - repeat (case_match; simpl in *; simplify_eq); done.
  - repeat (case_match; simpl in *; simplify_eq); done.
  - repeat (case_match; simpl in *; simplify_eq); done.
  - intros Hok. destruct gitignore0 as [content|]; simpl.
    + repeat (rewrite Hok; simpl).
      destruct (Js.includes ".obsidian" content) eqn:Hinc; simpl.
      * eauto.
      * rewrite Hok. simpl. eexists. split; [done|].
        do 4 apply includes_app_r. reflexivity.
    + rewrite Hok. simpl. eexists. split; [done|]. reflexivity.
  - intros content -> Hinc Hok1 Hok2. simpl.
    rewrite Hok1. simpl. rewrite length_snoc, Hok2. simpl.
    rewrite Hinc. simpl. by rewrite <- app_assoc.
Qed.

Lemma ensureGitignoreExists_excludes_obsidian_witness :
  ∃ content,
    gitignore (world (ensureGitignoreExists "/vault"
                        (loaded DEFAULT_SETTINGS (desktop "main" no_faults))).2)
      = Some content
    ∧ Js.includes ".obsidian" content = true.
Proof.
  exact (proj1 (proj2 (ensureGitignoreExists_excludes_obsidian
                         (loaded DEFAULT_SETTINGS (desktop "main" no_faults)) "/vault"))
               (λ _, eq_refl)).
Defined.

(** ** Cloning *)

Lemma bind_normal {A B} (m : M A) (k : A → M B) (p q : Plugin) (b : B) :
  bind m k p = (Normal b, q) →
  ∃ a p1, m p = (Normal a, p1) ∧ k a p1 = (Normal b, q).
Proof.
  unfold bind. destruct (m p) as [[a|e] p1]; [eauto | done].
Qed.

Lemma try_catch_normal {A} (m : M A) (h : string → M A) (p q : Plugin) (a : A) :
  try_catch m h p = (Normal a, q) →
  m p = (Normal a, q) ∨ ∃ e p1, m p = (Throw e, p1) ∧ h e p1 = (Normal a, q).
Proof.
  unfold try_catch. destruct (m p) as [[a'|e] p1]; [by left | right; eauto].
Qed.

Ltac split_bind H :=
  let a := fresh "a" in
  let q := fresh "q" in
  let H1 := fresh "Hstep" in
  apply bind_normal in H as (a & q & H1 & H).



(** X16. Whenever [cloneRepository] returns [true], the settings it leaves
    are those of a connected repository: the URL is the one given, the
    token is stored where [getRepositoryToken] finds it under that URL, the
    main branch is [main], the current branch is not [master], the branch
    list names no branch twice and not [master], what is saved is what is
    in memory, and the git-operation flag is off. *)
Theorem cloneRepository_success (p : Plugin) (url token : string) :
  (cloneRepository url token p).1 = Normal true →
  let p' := (cloneRepository url token p).2 in
  isRepositoryConnected (settings p') = true
  ∧ repositoryUrl (settings p') = url
  ∧ (getRepositoryToken url p').1 = Normal (Some token)
  ∧ mainBranch (settings p') = "main"
  ∧ currentBranch (settings p') ≠ "master"
  ∧ NoDup (availableBranches (settings p'))
  ∧ ("master" ∉ availableBranches (settings p'))
  ∧ savedData p' = settings p'
  ∧ isGitOperationInProgress p' = false.
Proof.
  destruct (cloneRepository url token p) as [r p'] eqn:H. simpl. intros ->.
  unfold cloneRepository in H. rewrite setGitOperationInProgress_then in H.
  unfold try_finally in H.
  match type of H with
  | (let (r, p') := ?body ?p0 in _) = _ => destruct (body p0) as [r q1] eqn:Hbody
  end.
  simpl in H. injection H as -> <-.
  apply try_catch_normal in Hbody as [Hbody | (e & p1 & _ & Hh)].
  2: { unfold bind, Notice, ret in Hh. simpl in Hh. discriminate. }
  split_bind Hbody. split_bind Hbody.
  destruct (negb a0). { split_bind Hbody. discriminate. }
  split_bind Hbody. split_bind Hbody.
  destruct a2 as [files|]; [|discriminate].
  split_bind Hbody. split_bind Hbody.
  apply try_catch_normal in Hbody as [Hbody | (e & p1 & _ & Hh)].
  2: { split_bind Hh. discriminate. }
  do 8 split_bind Hbody.
  clear -Hbody.
  split_bind Hbody. split_bind Hbody.
  assert (Hdetect : currentBranch (settings q) ≠ "master"
                    ∧ mainBranch (settings q) = "main").
  { clear -Hstep. revert Hstep. unfold_M. simpl.
    repeat (case_match; simpl in *; simplify_eq);
      intros; simplify_eq; simpl; (split; [|done]);
      try case_bool_decide; done. }
  assert (Hlist : ∃ out,
            (out = ["main"] ∨ ∃ text, out = branches_of text)
            ∧ settings q0 = set_availableBranches out (settings q)).
  { clear -Hstep0. revert Hstep0. unfold_M. simpl.
    repeat (case_match; simpl in *; simplify_eq);
      intros; simplify_eq; simpl; eexists; (split; [|done]); eauto. }
  destruct Hlist as (out & Hout & Hs).
  assert (Hend : settings q1 =
                   set_isRepositoryConnected true
                     (set_repositoryTokens
                        (<[normalizeRepositoryUrl url := token]>
                           (repositoryTokens (settings q0)))
                        (set_repositoryUrl url (settings q0)))
                 ∧ savedData q1 = settings q1).
  { clear -Hbody. revert Hbody. unfold setRepositoryToken. unfold_M. simpl.
    repeat (case_match; simpl in *; simplify_eq); intros; by simplify_eq. }
  destruct Hend as [Hsettings Hsaved]. destruct Hdetect as [Hcur Hmain].
  unfold getRepositoryToken. unfold_M. simpl.
  rewrite Hsaved, Hsettings, Hs. simpl.
  rewrite lookup_insert_eq. split_and!; try done.
  - destruct Hout as [->|[text ->]]; [apply NoDup_singleton|].
    apply NoDup_dedupe_go.
  - destruct Hout as [->|[text ->]].
    + by intros ?%list_elem_of_singleton.
    + unfold branches_of, Js.dedupe.
      rewrite elem_of_dedupe_go, list_elem_of_filter. by intros [[Hm _] _].
Qed.

Lemma cloneRepository_success_witness :
  let p := loaded DEFAULT_SETTINGS (desktop "main" no_faults) in
  let url := "https://github.com/owner/repo.git" in
  let p' := (cloneRepository url "ghp_token" p).2 in
  isRepositoryConnected (settings p') = true
  ∧ repositoryUrl (settings p') = url
  ∧ (getRepositoryToken url p').1 = Normal (Some "ghp_token")
  ∧ mainBranch (settings p') = "main"
  ∧ currentBranch (settings p') ≠ "master"
  ∧ NoDup (availableBranches (settings p'))
  ∧ ("master" ∉ availableBranches (settings p'))
  ∧ savedData p' = settings p'
  ∧ isGitOperationInProgress p' = false.
Proof.
  exact (cloneRepository_success
           (loaded DEFAULT_SETTINGS (desktop "main" no_faults))
           "https://github.com/owner/repo.git" "ghp_token"
           ltac:(vm_compute; reflexivity)).
Defined.

Lemma cloneButtonClick_steps (p : Plugin) (url typed : string) :
  url ≠ EmptyString →
  cloneButtonClick url typed p =
    let finalToken :=
      if bool_decide (typed ≠ EmptyString) then Some typed
      else repositoryTokens (settings p) !! normalizeRepositoryUrl url in
    (if negb (truthy finalToken) && negb (isPublicRepository url)
     then Notice "Private repositories require a GitHub token. Leave token empty for public repositories."
     else cloneRepository url (or_else finalToken EmptyString) >> ret tt) p.
Proof.
  intros Hurl.
  unfold cloneButtonClick, getRepositoryToken, bind at 1, getSettings.
  cbv beta. unfold bind at 1, ret at 1. cbv beta iota.
  by rewrite (bool_decide_eq_false_2 (url = EmptyString)).
Qed.

(** X17. The [Clone Repository] button.  A token typed into the modal is
    the one handed to [cloneRepository]; with the field left empty, a token
    saved under any spelling of the URL is used instead; and with neither,
    a URL that contains [private] or [github.com:] is turned down with a
    notice, before any call and with no setting changed. *)
Theorem cloneButtonClick_token (p : Plugin) (url typed : string) :
  url ≠ EmptyString →
  (typed ≠ EmptyString →
   cloneButtonClick url typed p = (cloneRepository url typed >> ret tt) p)
  ∧ (∀ saved,
       repositoryTokens (settings p) !! normalizeRepositoryUrl url = Some saved →
       saved ≠ EmptyString →
       cloneButtonClick url EmptyString p = (cloneRepository url saved >> ret tt) p)
  ∧ (repositoryTokens (settings p) !! normalizeRepositoryUrl url = None →
     Js.includes "private" url = true ∨ Js.includes "github.com:" url = true →
     cloneButtonClick url EmptyString p =
       (Normal tt,
        mkPlugin (settings p) (savedData p) (isGitOperationInProgress p)
          (notices p ++ ["Private repositories require a GitHub token. Leave token empty for public repositories."])
          (modals p) (calls p) (world p))).
Proof.
  intros Hurl. split_and!.
  - intros Htyped. rewrite cloneButtonClick_steps by done.
    rewrite bool_decide_eq_true_2 by done.
    destruct typed; [done | reflexivity].
  - intros saved Hlookup Hsaved. rewrite cloneButtonClick_steps by done.
    rewrite Hlookup, bool_decide_eq_false_2 by (by intros []).
    destruct saved; [done | reflexivity].
  - intros Hlookup Hprivate. rewrite cloneButtonClick_steps by done.
    rewrite Hlookup, bool_decide_eq_false_2 by (by intros []).
    assert (isPublicRepository url = false) as ->; [|reflexivity].
    unfold isPublicRepository.
    destruct Hprivate as [-> | ->]; simpl; by rewrite ?andb_false_r.
Qed.

Lemma cloneButtonClick_token_witness :
  let p := loaded DEFAULT_SETTINGS (desktop "main" no_faults) in
  let url := "git@github.com:owner/repo.git" in
  cloneButtonClick url EmptyString p =
    (Normal tt,
     mkPlugin (settings p) (savedData p) (isGitOperationInProgress p)
       (notices p ++ ["Private repositories require a GitHub token. Leave token empty for public repositories."])
       (modals p) (calls p) (world p)).
Proof.
  exact (proj2 (proj2 (cloneButtonClick_token
                         (loaded DEFAULT_SETTINGS (desktop "main" no_faults))
                         "git@github.com:owner/repo.git" EmptyString
                         ltac:(discriminate)))
               eq_refl (or_intror eq_refl)).
Defined.

(** ** The background check for remote updates *)



(** ** The read-only toggle of the settings tab *)

(** X19. The toggle writes the flag and saves, with no call to git and no
    look at the branch: switched off on a consistent plugin that sits on
    the main branch, it leaves edit mode on the main branch, saved as
    such.  One run of the validator whose branch query succeeds puts the
    plugin back into a consistent state. *)
Theorem toggle_off_on_main (p : Plugin) :
  consistent p →
  isFileSystemAdapter (world p) = true →
  isReadOnlyMode (settings p) = true →
  faults (world p) (length (calls p)) = false →
  let p1 := (setDefaultReadOnly false p).2 in
  (isReadOnlyMode (settings p1) = false
   ∧ currentBranch (settings p1) = mainBranch (settings p1)
   ∧ savedData p1 = settings p1
   ∧ calls p1 = calls p)
  ∧ consistent (validateAndEnforceBranchRules p1).2.
Proof.
  intros (Hc & [Hro _] & Hmain & Hgit) Hfs Hmode Hok.
  destruct (Hgit Hfs) as [Hhead Hcur]. specialize (Hro Hmode).
  unfold trimmed in *. open_plugin p. split; [done|].
  unfold setDefaultReadOnly, validateAndEnforceBranchRules. unfold_M. simpl.
  rewrite Hok. simpl. rewrite trim_LF by done.
  repeat (case_bool_decide; simpl in *; simplify_eq); consistent_now.
Qed.

Lemma toggle_off_on_main_witness :
  let p := loaded connected_settings (desktop "main" no_faults) in
  let p1 := (setDefaultReadOnly false p).2 in
  (isReadOnlyMode (settings p1) = false
   ∧ currentBranch (settings p1) = mainBranch (settings p1)
   ∧ savedData p1 = settings p1
   ∧ calls p1 = calls p)
  ∧ consistent (validateAndEnforceBranchRules p1).2.
Proof.
  apply (toggle_off_on_main (loaded connected_settings (desktop "main" no_faults))).
  - unfold consistent, coupled. simpl. repeat split; reflexivity.
  - reflexivity.
  - reflexivity.
  - reflexivity.
Defined.
